(** * una-health-backend: the glucose-level service of [main.py]

    A shallow embedding of the request handlers [load_data],
    [create_glucose_level] and [get_glucose_levels] of [main.py], together
    with the record type of [models.py] and the request schema of
    [schemas.py], and the properties of the CSV ingestion pipeline.

    Conventions.
    - Python [str] values are [string]s holding the UTF-8 bytes of the text.
      Every pattern the handlers search for (['.'], ['.csv'], ['.asc'],
      ['.desc'], ['desc']) is ASCII, so searching bytes and searching code
      points agree.
    - Python exceptions are values of [exn]; a computation that may raise
      returns a [result].
    - The SQLAlchemy session is an explicit state (rows of the table, objects
      added and not yet committed) threaded through the handlers.
    - Library calls whose behaviour lives outside the repository
      ([datetime.strptime], [float], the execution of a query, the attributes
      a mapped class inherits) are variables of the sections below; what the
      storage makes of a datetime and of a float is the class [Storage].
    - Logging is not modelled. *)

From Stdlib Require Import String Ascii List ZArith Bool Arith Lia.
From Stdlib Require Import DecimalString.
Import ListNotations.
Open Scope string_scope.
Open Scope list_scope.

Set Implicit Arguments.

(* ================================================================= *)
(** ** Python builtins used by the handlers *)

Module Py.

(** Exceptions the handlers can meet.  All of them are subclasses of
    [Exception]; [HTTPException] is FastAPI's, which derives from
    Starlette's, which derives from [Exception]. *)
Inductive exn : Type :=
| ValueError
| IndexError
| AttributeError
| UnicodeDecodeError
| CsvError                       (* csv.Error *)
| IntegrityError                 (* sqlalchemy.exc.IntegrityError *)
| OperationalError               (* any other failure of the engine *)
| HTTPException (status_code : Z) (detail : string).

Inductive result (A : Type) : Type :=
| Return (a : A)
| Raise (e : exn).
Arguments Return {A} a.
Arguments Raise {A} e.

Definition is_ValueError (e : exn) : bool :=
  match e with ValueError => true | _ => false end.

Definition is_IntegrityError (e : exn) : bool :=
  match e with IntegrityError => true | _ => false end.

(** [s.startswith(p)] *)
Fixpoint startswith (p s : string) : bool :=
  match p, s with
  | EmptyString, _ => true
  | String a p', String b s' => Ascii.eqb a b && startswith p' s'
  | String _ _, EmptyString => false
  end.

(** [s.endswith(suffix)]: some tail of [s] is [suffix]. *)
Fixpoint endswith (suffix s : string) : bool :=
  String.eqb s suffix ||
  match s with
  | EmptyString => false
  | String _ s' => endswith suffix s'
  end.

(** [sub in s] *)
Fixpoint contains (sub s : string) : bool :=
  startswith sub s ||
  match s with
  | EmptyString => false
  | String _ s' => contains sub s'
  end.

(** [s.split(sep)] for a one-character separator: never empty, one more
    piece than there are separators. *)
Fixpoint split (sep : ascii) (s : string) : list string :=
  match s with
  | EmptyString => [EmptyString]
  | String c s' =>
      if Ascii.eqb c sep then EmptyString :: split sep s'
      else match split sep s' with
           | [] => [String c EmptyString]
           | piece :: pieces => String c piece :: pieces
           end
  end.

(** [l[i]] for [i >= 0]. *)
Definition getitem {A : Type} (l : list A) (i : nat) : result A :=
  match nth_error l i with
  | Some x => Return x
  | None => Raise IndexError
  end.

(** [l.index(x)] on a list of strings: the first position, or [ValueError]. *)
Fixpoint index_from (x : string) (l : list string) (i : nat) : result nat :=
  match l with
  | [] => Raise ValueError
  | y :: l' => if String.eqb y x then Return i else index_from x l' (S i)
  end.

Definition index (x : string) (l : list string) : result nat :=
  index_from x l 0.

(** [s.replace(old, new)] for a non-empty [old] (both call sites pass a
    literal of four or five characters): occurrences are found left to
    right and do not overlap.  [skip] counts the characters of the
    occurrence just matched that are still to be passed over. *)
Fixpoint replace_from (old new : string) (skip : nat) (s : string) : string :=
  match s with
  | EmptyString => EmptyString
  | String c s' =>
      match skip with
      | S k => replace_from old new k s'
      | O =>
          if startswith old s
          then new ++ replace_from old new (String.length old - 1) s'
          else String c (replace_from old new 0 s')
      end
  end.

Definition replace (old new s : string) : string := replace_from old new 0 s.

End Py.

Import Py.

(** Truthiness of a [str]: non-empty. *)
Definition truthy (s : string) : bool :=
  match s with EmptyString => false | _ => true end.

(* ================================================================= *)
(** ** models.py and schemas.py *)

Module models.

(** [class GlucoseLevel(Base)]: a row of [glucose_levels].  No column is
    declared [nullable=False], so every field can hold [NULL] ([None]);
    [id] is [None] until the row is inserted. *)
Record GlucoseLevel (datetime float : Type) : Type := mkGlucoseLevel {
  id : option Z;
  user_id : option string;
  timestamp : option datetime;
  glucose_value : option float
}.

(** Names bound in the class body of [GlucoseLevel]. *)
Definition declared_attrs : list string :=
  ["__tablename__"; "id"; "user_id"; "timestamp"; "glucose_value"].

End models.

Module schemas.

(** [class GlucoseLevelCreate(BaseModel)]: three required fields, none of
    them [Optional]; the framework answers 422 to a body that lacks one or
    carries [null], so the handler only ever sees a value of this type. *)
Record GlucoseLevelCreate (datetime float : Type) : Type := mkGlucoseLevelCreate {
  user_id : string;
  timestamp : datetime;
  glucose_value : float
}.

End schemas.

(* ================================================================= *)
(** ** The uploaded file *)

Definition row : Type := list string.

(** What iterating [csv.reader(StringIO(text))] gives: rows, one at a time,
    until the text is exhausted or the reader raises [csv.Error].  Both
    loops of [load_data] draw from the same iterator, so the second loop
    sees only what the first one left. *)
Inductive reader : Type :=
| Exhausted
| Broken
| Yield (r : row) (rest : reader).

(** The uploaded bytes, seen through [content.decode('utf-8')] and
    [csv.reader]. *)
Inductive upload_content : Type :=
| NotUtf8
| Utf8 (rows : reader).

Record UploadFile : Type := mkUploadFile {
  filename : string;
  content : upload_content
}.

(** A reader that yields [rows] and then goes on as [rest]. *)
Definition yield_all (rows : list row) (rest : reader) : reader :=
  fold_right Yield rest rows.

(** The two column names [load_data] looks up.  The first literal of the
    source holds the seven code points G e r U+00C3 U+00A4 t e ..., here as
    their UTF-8 bytes. *)
Definition timestamp_column : string :=
  "Ger" ++ String (ascii_of_nat 195) (String (ascii_of_nat 131)
           (String (ascii_of_nat 194) (String (ascii_of_nat 164) "tezeitstempel"))).

Definition glucose_value_column : string := "Glukosewert-Verlauf mg/dL".

(** The width that marks the header row. *)
Definition header_width : nat := 19.

(** What the outer handler of [load_data] raises. *)
Definition failed : exn :=
  HTTPException 500 "An error occurred while processing the file".

(* ================================================================= *)
(** ** The session and the handlers *)

(** What the storage does to the two values it does not keep as they are.
    A [DateTime] column is written from the date and time fields of the
    datetime, so a UTC offset is dropped and the row reads back [naive],
    the same wall-clock time without offset; a [Float] column holds a NaN
    as [NULL], which is what [isnan] singles out. *)
Class Storage (datetime float : Type) : Type := mkStorage {
  naive : datetime -> datetime;
  isnan : float -> bool
}.

Section Service.

Variable datetime : Type.
Variable float : Type.

(** [datetime.strptime(s, "%d-%m-%Y %H:%M")] and [float(s)] on a [str]:
    [None] stands for the [ValueError] either raises on text it rejects. *)
Variable strptime : string -> option datetime.
Variable float_of_str : string -> option float.

Definition GlucoseLevel : Type := models.GlucoseLevel datetime float.
Definition GlucoseLevelCreate : Type := schemas.GlucoseLevelCreate datetime float.

(** A SQLAlchemy session bound to the engine. *)
Record Session : Type := mkSession {
  table : list GlucoseLevel;      (* the rows of glucose_levels *)
  new : list GlucoseLevel;        (* objects added and not yet flushed *)
  failing : option exn            (* what the engine raises at the next commit *)
}.

(** [SessionLocal()] *)
Definition SessionLocal (rows : list GlucoseLevel) (fault : option exn) : Session :=
  mkSession rows [] fault.

(** Handlers are computations over the session that may raise. *)
Definition M (A : Type) : Type := Session -> result A * Session.

Definition ret {A : Type} (a : A) : M A := fun db => (Return a, db).

Definition raise {A : Type} (e : exn) : M A := fun db => (Raise e, db).

Definition bind {A B : Type} (c : M A) (k : A -> M B) : M B :=
  fun db =>
    match c db with
    | (Return a, db') => k a db'
    | (Raise e, db') => (Raise e, db')
    end.

Definition lift {A : Type} (r : result A) : M A := fun db => (r, db).

(** A call that raises [ValueError] where the library function rejects. *)
Definition or_ValueError {A : Type} (o : option A) : M A :=
  match o with
  | Some a => ret a
  | None => raise ValueError
  end.

(** [try: body  except <catches> : handler] *)
Definition try_except {A : Type} (body : M A) (catches : exn -> bool)
           (handler : exn -> M A) : M A :=
  fun db =>
    match body db with
    | (Return a, db') => (Return a, db')
    | (Raise e, db') => if catches e then handler e db' else (Raise e, db')
    end.

(** [except Exception]: every exception of [exn] is one. *)
Definition Exception (e : exn) : bool := true.

(** *** The session's operations *)

Context {storage : Storage datetime float}.

(** A value as the [Float] column holds it. *)
Definition stored_value (v : option float) : option float :=
  match v with
  | Some x => if isnan x then None else Some x
  | None => None
  end.

(** The row the storage writes for an object, under the id it gives it. *)
Definition with_id (i : Z) (o : GlucoseLevel) : GlucoseLevel :=
  models.mkGlucoseLevel (Some i) (models.user_id o)
                        (option_map naive (models.timestamp o))
                        (stored_value (models.glucose_value o)).

(** The largest [id] in the table, 0 for a table without one. *)
Fixpoint max_id (rows : list GlucoseLevel) : Z :=
  match rows with
  | [] => 0
  | r :: rows' =>
      match models.id r with
      | Some i => Z.max i (max_id rows')
      | None => max_id rows'
      end
  end.

(** The storage hands out ids on insert, one after the other. *)
Fixpoint number (next : Z) (objs : list GlucoseLevel) : list GlucoseLevel :=
  match objs with
  | [] => []
  | o :: objs' => with_id next o :: number (next + 1) objs'
  end.

Definition inserted (db : Session) : list GlucoseLevel :=
  number (max_id (table db) + 1) (new db).

(** [db.add(obj)] *)
Definition add (obj : GlucoseLevel) : M unit :=
  fun db => (Return tt, mkSession (table db) (new db ++ [obj]) (failing db)).

(** [db.commit()]: one transaction; all the pending objects become rows, or
    the engine raises, none does, and the session lets go of them.  Returns
    the rows it wrote. *)
Definition commit : M (list GlucoseLevel) :=
  fun db =>
    match failing db with
    | Some e => (Raise e, mkSession (table db) [] (failing db))
    | None => (Return (inserted db),
               mkSession (table db ++ inserted db) [] None)
    end.

(** [db.rollback()] *)
Definition rollback : M unit :=
  fun db => (Return tt, mkSession (table db) [] (failing db)).

(** [db.close()], run by [get_db] when the request ends: what was added and
    never committed is gone. *)
Definition close (db : Session) : Session :=
  mkSession (table db) [] (failing db).

(** *** [load_data] *)

(** [content.decode('utf-8')] followed by [csv.reader(StringIO(...))] *)
Definition decode (c : upload_content) : M reader :=
  match c with
  | NotUtf8 => raise UnicodeDecodeError
  | Utf8 rd => ret rd
  end.

(** The first loop: [for row in reader: if len(row) == 19: headers = row;
    break], with [headers = None] before it.  Returns [headers] and what is
    left of the reader. *)
Fixpoint find_headers (rd : reader) : M (option row * reader) :=
  match rd with
  | Exhausted => ret (None, Exhausted)
  | Broken => raise CsvError
  | Yield r rest =>
      if Nat.eqb (List.length r) header_width then ret (Some r, rest)
      else find_headers rest
  end.

(** [headers.index(name)]: [None] has no attribute [index]. *)
Definition headers_index (headers : option row) (name : string) : M nat :=
  match headers with
  | None => raise AttributeError
  | Some h => lift (index name h)
  end.

(** The inner [try] of the second loop. *)
Definition parse_and_add (uid timestamp_str glucose_value_str : string) : M unit :=
  try_except
    (bind (or_ValueError (strptime timestamp_str)) (fun timestamp =>
     bind (or_ValueError (float_of_str glucose_value_str)) (fun glucose_value =>
     add (models.mkGlucoseLevel None (Some uid) (Some timestamp)
                                (Some glucose_value)))))
    is_ValueError
    (fun _ => ret tt).

(** The body of the second loop, for one row. *)
Definition load_row (uid : string) (timestamp_idx glucose_value_idx : nat)
           (r : row) : M unit :=
  bind (lift (getitem r timestamp_idx)) (fun timestamp_str =>
  bind (lift (getitem r glucose_value_idx)) (fun glucose_value_str =>
  if truthy timestamp_str && truthy glucose_value_str
  then parse_and_add uid timestamp_str glucose_value_str
  else ret tt)).

(** The second loop: [for row in reader: ...] over what the first left. *)
Fixpoint load_rows (uid : string) (timestamp_idx glucose_value_idx : nat)
         (rd : reader) : M unit :=
  match rd with
  | Exhausted => ret tt
  | Broken => raise CsvError
  | Yield r rest =>
      bind (load_row uid timestamp_idx glucose_value_idx r) (fun _ =>
      load_rows uid timestamp_idx glucose_value_idx rest)
  end.

(** The [try] around the two [headers.index] calls. *)
Definition resolve_columns (headers : option row) : M (nat * nat) :=
  try_except
    (bind (headers_index headers timestamp_column) (fun timestamp_idx =>
     bind (headers_index headers glucose_value_column) (fun glucose_value_idx =>
     ret (timestamp_idx, glucose_value_idx))))
    is_ValueError
    (fun _ => raise (HTTPException 400 "Required columns not found in CSV file")).

(** The body of the outer [try]. *)
Definition load_data_body (file : UploadFile) : M string :=
  bind (lift (getitem (split "." (filename file)) 0)) (fun uid =>
  bind (decode (content file)) (fun rd =>
  bind (find_headers rd) (fun found =>
  bind (resolve_columns (fst found)) (fun idx =>
  bind (load_rows uid (fst idx) (snd idx) (snd found)) (fun _ =>
  bind commit (fun _ =>
  ret "Data loaded successfully")))))).

(** [POST /api/v1/load-data/]: the answer is the JSON message, or the
    [HTTPException] the framework turns into the response. *)
Definition load_data (file : UploadFile) : M string :=
  if negb (endswith ".csv" (filename file))
  then raise (HTTPException 400 "Unsupported file format")
  else
    try_except (load_data_body file) Exception
      (fun _ => raise (HTTPException 500 "An error occurred while processing the file")).

(** *** What a file is meant to leave in the table *)

(** The records a data row stands for: one, carrying the file's user, when
    both cells are there and both parse; none otherwise. *)
Definition row_records (uid : string) (timestamp_idx glucose_value_idx : nat)
           (r : row) : list GlucoseLevel :=
  match nth_error r timestamp_idx, nth_error r glucose_value_idx with
  | Some timestamp_str, Some glucose_value_str =>
      match strptime timestamp_str, float_of_str glucose_value_str with
      | Some timestamp, Some glucose_value =>
          [models.mkGlucoseLevel None (Some uid) (Some timestamp)
                                 (Some glucose_value)]
      | _, _ => []
      end
  | _, _ => []
  end.

(** A row that has a cell in both columns. *)
Definition has_both_cells (timestamp_idx glucose_value_idx : nat) (r : row) : Prop :=
  timestamp_idx < List.length r /\ glucose_value_idx < List.length r.



(** *** [create_glucose_level] *)

(** The [GlucoseLevel] built from the fields of [glucose_level.dict()]. *)
Definition of_create (g : GlucoseLevelCreate) : GlucoseLevel :=
  models.mkGlucoseLevel None (Some (schemas.user_id g))
    (Some (schemas.timestamp g)) (Some (schemas.glucose_value g)).

(** [db.refresh(obj)] after the commit: the object as its row now reads.
    The object is the one added last. *)
Definition refresh (written : list GlucoseLevel) : M GlucoseLevel :=
  match rev written with
  | r :: _ => ret r
  | [] => raise OperationalError
  end.

(** [POST /api/v1/levels/] *)
Definition create_glucose_level (glucose_level : GlucoseLevelCreate) : M GlucoseLevel :=
  try_except
    (bind (add (of_create glucose_level)) (fun _ =>
     bind commit (fun written =>
     refresh written)))
    Exception
    (fun e =>
       if is_IntegrityError e
       then bind rollback (fun _ =>
            raise (HTTPException 400 "Data integrity error, possibly duplicate data."))
       else bind rollback (fun _ =>
            raise (HTTPException 500
              "An unexpected error occurred when trying to create a glucose level."))).

(** *** [get_glucose_levels] *)

(** [asc] and [desc] of SQLAlchemy. *)
Inductive direction : Type := asc | desc.

Inductive criterion : Type :=
| user_id_eq (u : string)             (* GlucoseLevel.user_id == u *)
| timestamp_ge (t : datetime)         (* GlucoseLevel.timestamp >= t *)
| timestamp_le (t : datetime).        (* GlucoseLevel.timestamp <= t *)

(** A query under construction: [filter], [order_by], [offset] and
    [limit] each return the query extended. *)
Record Query : Type := mkQuery {
  criteria : list criterion;
  ordering : list (direction * string);
  offset : option Z;
  limit : option Z
}.

Definition filter_by (q : Query) (c : criterion) : Query :=
  mkQuery (criteria q ++ [c]) (ordering q) (offset q) (limit q).

Definition order_by (q : Query) (d : direction) (column : string) : Query :=
  mkQuery (criteria q) (ordering q ++ [(d, column)]) (offset q) (limit q).

Definition with_offset (q : Query) (n : Z) : Query :=
  mkQuery (criteria q) (ordering q) (Some n) (limit q).

Definition with_limit (q : Query) (n : Z) : Query :=
  mkQuery (criteria q) (ordering q) (offset q) (Some n).

(** Attributes [GlucoseLevel] has beyond those of its class body: what the
    declarative base and [object] give it. *)
Variable inherited_attr : string -> bool.

(** [hasattr(GlucoseLevel, name)] *)
Definition hasattr_GlucoseLevel (name : string) : bool :=
  existsb (String.eqb name) models.declared_attrs || inherited_attr name.

(** [query.all()]: the engine runs the query against the table. *)
Variable all : Query -> list GlucoseLevel -> result (list GlucoseLevel).

(** [sort_direction = desc if 'desc' in sort else asc] *)
Definition sort_direction (sort : string) : direction :=
  if contains "desc" sort then desc else asc.

(** [sort_column = sort.replace('.asc', '').replace('.desc', '')] *)
Definition sort_column (sort : string) : string :=
  replace ".desc" "" (replace ".asc" "" sort).

(** The value of [query] when [query.all()] is called.  [start] and [stop]
    are [None] or a [datetime], and a [datetime] is always true. *)
Definition levels_query (user_id : string) (start stop : option datetime)
           (page page_size : Z) (sort : string) : Query :=
  let query := mkQuery [user_id_eq user_id] [] None None in
  let query := match start with
               | Some t => filter_by query (timestamp_ge t)
               | None => query
               end in
  let query := match stop with
               | Some t => filter_by query (timestamp_le t)
               | None => query
               end in
  let query := if hasattr_GlucoseLevel (sort_column sort)
               then order_by query (sort_direction sort) (sort_column sort)
               else query in
  let offset := ((page - 1) * page_size)%Z in
  with_limit (with_offset query offset) page_size.

(** What the list endpoint answers with. *)
Inductive listing : Type :=
| Levels (levels : list GlucoseLevel)
| JSONResponse (status_code : Z) (message : string).

(** [GET /api/v1/levels/] *)
Definition get_glucose_levels (user_id : string) (start stop : option datetime)
           (page page_size : Z) (sort : string) : M listing :=
  fun db =>
    match all (levels_query user_id start stop page page_size sort) (table db) with
    | Raise e => (Raise e, db)
    | Return [] =>
        (Return (JSONResponse 404 "No glucose levels found for the specified criteria"), db)
    | Return levels => (Return (Levels levels), db)
    end.

End Service.

Arguments Exception e : clear implicits.

(* ================================================================= *)
(** ** A reference instance of the library calls

    Used to run the handlers on concrete files.  [ref_strptime] accepts the
    zero-padded form [DD-MM-YYYY HH:MM] of a real calendar date, which
    [datetime.strptime] accepts too (it also accepts unpadded fields);
    [ref_float] accepts unsigned decimal integers, a fragment of what
    [float] accepts. *)

Record ref_datetime : Type := mkDatetime {
  year : nat; month : nat; day : nat; hour : nat; minute : nat
}.

Definition digit (c : ascii) : option nat :=
  let n := nat_of_ascii c in
  if ((48 <=? n) && (n <=? 57))%nat then Some (n - 48) else None.

Fixpoint digits (acc : nat) (s : list ascii) : option nat :=
  match s with
  | [] => Some acc
  | c :: s' =>
      match digit c with
      | Some d => digits (10 * acc + d) s'
      | None => None
      end
  end.

Definition leap (y : nat) : bool :=
  ((y mod 4 =? 0) && (negb (y mod 100 =? 0) || (y mod 400 =? 0)))%nat.

Definition days_in_month (y m : nat) : nat :=
  match m with
  | 2 => if leap y then 29 else 28
  | 4 | 6 | 9 | 11 => 30
  | _ => 31
  end.

Definition ref_strptime (s : string) : option ref_datetime :=
  match list_ascii_of_string s with
  | [d1; d2; "-"%char; m1; m2; "-"%char; y1; y2; y3; y4; " "%char;
     h1; h2; ":"%char; n1; n2] =>
      match digits 0 [d1; d2], digits 0 [m1; m2], digits 0 [y1; y2; y3; y4],
            digits 0 [h1; h2], digits 0 [n1; n2] with
      | Some d, Some m, Some y, Some h, Some n =>
          if ((1 <=? y) && (1 <=? m) && (m <=? 12) && (1 <=? d)
              && (d <=? days_in_month y m) && (h <=? 23) && (n <=? 59))%nat
          then Some (mkDatetime y m d h n)
          else None
      | _, _, _, _, _ => None
      end
  | _ => None
  end.

Definition ref_float (s : string) : option nat :=
  match s with
  | EmptyString => None
  | _ => digits 0 (list_ascii_of_string s)
  end.

(** A 19-column header with the two required names at positions 2 and 4,
    where the exported files have them. *)
Definition sample_headers : row :=
  ["Geraet"; "Seriennummer"; timestamp_column; "Aufzeichnungstyp";
   glucose_value_column] ++ repeat "c" 14.

(** A data row of 19 cells with the given timestamp and value cells. *)
Definition sample_row (timestamp_str glucose_value_str : string) : row :=
  ["FreeStyle LibreLink"; "1D48A10E"; timestamp_str; "0"; glucose_value_str]
  ++ repeat "" 14.

(** The reference datetimes carry no offset, and the reference floats, being
    whole numbers, are never NaN. *)
#[global] Instance ref_storage : Storage ref_datetime nat :=
  {| naive := fun d => d; isnan := fun _ => false |}.




(** The handlers at the reference instance. *)
Definition ref_load_data :=
  load_data ref_strptime ref_float.

Definition ref_session (rows : list (models.GlucoseLevel ref_datetime nat))
           (fault : option exn) : Session ref_datetime nat :=
  SessionLocal rows fault.

(** *** Sample uploads *)

(** The line an export starts with, before its header. *)
Definition metadata_row : row :=
  ["Glukose-Werte"; "Erstellt am"; "10-02-2021 09:08 UTC"; "Erstellt von"; "alice"].

Definition valid_row : row := sample_row "01-01-2023 10:30" "105".

Definition later_row : row := sample_row "01-01-2023 10:45" "98".

Definition blank_value_row : row := sample_row "01-01-2023 11:00" "".

Definition bad_date_row : row := sample_row "2023-01-01T11:15" "101".

(** Two cells only: no cell in either column. *)
Definition short_row : row := ["FreeStyle LibreLink"; "1D48A10E"].

(** Nineteen cells, neither of them one of the two names. *)
Definition other_headers : row := repeat "c" 19.

Definition upload (name : string) (rows : list row) : UploadFile :=
  mkUploadFile name (Utf8 (yield_all rows Exhausted)).

(** The record of [valid_row] and of [later_row] in a file of [alice]. *)
Definition alice_105 (i : option Z) : models.GlucoseLevel ref_datetime nat :=
  models.mkGlucoseLevel i (Some "alice")
    (Some (mkDatetime 2023 1 1 10 30)) (Some 105).

Definition alice_98 (i : option Z) : models.GlucoseLevel ref_datetime nat :=
  models.mkGlucoseLevel i (Some "alice")
    (Some (mkDatetime 2023 1 1 10 45)) (Some 98).

(** An engine that knows no attribute beyond the class body and answers
    every query with the whole table. *)
Definition no_inherited_attr (name : string) : bool := false.

Definition whole_table (q : Query ref_datetime)
           (rows : list (models.GlucoseLevel ref_datetime nat))
  : result (list (models.GlucoseLevel ref_datetime nat)) := Return rows.

(* ================================================================= *)
(** ** The other endpoints of [main.py] *)

Module responses.

(** [class GlucoseLevelResponse(GlucoseLevelCreate)] of [schemas.py], with
    [orm_mode]: the three fields of the create schema and [id], all four
    required. *)
Record GlucoseLevelResponse (datetime float : Type) : Type := mkGlucoseLevelResponse {
  id : Z;
  user_id : string;
  timestamp : datetime;
  glucose_value : float
}.

End responses.

Section Endpoints.

Variable datetime : Type.
Variable float : Type.

(** [get_db]: the dependency every handler runs under.  A session is
    opened on the engine, the handler runs with it, and [finally] closes
    it, whether the handler returned or raised. *)
Definition get_db {A : Type} (handler : M datetime float A)
           (rows : list (GlucoseLevel datetime float)) (fault : option exn)
  : result A * Session datetime float :=
  let (answer, db) := handler (SessionLocal rows fault) in
  (answer, close db).

(** [GlucoseLevel.id == i], on a row. *)
Definition has_id (i : Z) (g : GlucoseLevel datetime float) : bool :=
  match models.id g with
  | Some j => Z.eqb j i
  | None => false
  end.

(** [db.query(GlucoseLevel).filter(GlucoseLevel.id == id).first()]: the
    first row of the table with that id, or [None]. *)
Definition first_by_id (i : Z) (rows : list (GlucoseLevel datetime float))
  : option (GlucoseLevel datetime float) :=
  find (has_id i) rows.

(** [GET /api/v1/levels/{id}], for an [id] the driver can bind as a
    parameter of the query, a 64-bit integer; every id of a row is one. *)
Definition get_glucose_level (id : Z) : M datetime float (GlucoseLevel datetime float) :=
  fun db =>
    match first_by_id id (table db) with
    | None => (Raise (HTTPException 404 "Glucose level not found"), db)
    | Some glucose_level => (Return glucose_level, db)
    end.

(** What the framework does with a handler's answer under
    [response_model=GlucoseLevelResponse]: it reads the four attributes off
    the object; a [None] among them fails the validation. *)
Definition from_orm (g : GlucoseLevel datetime float)
  : option (responses.GlucoseLevelResponse datetime float) :=
  match models.id g, models.user_id g, models.timestamp g, models.glucose_value g with
  | Some i, Some u, Some t, Some v => Some (responses.mkGlucoseLevelResponse i u t v)
  | _, _, _, _ => None
  end.

(** *** [export_data] *)

(** Whether [s.encode('latin-1')] goes through: every character of the
    text is below U+0100.  On the UTF-8 bytes of the text these are the
    bytes below 128 and the two-byte forms led by 194 or 195. *)
Fixpoint latin1 (s : string) : bool :=
  match s with
  | EmptyString => true
  | String c s' =>
      let n := nat_of_ascii c in
      if (n <? 128)%nat then latin1 s'
      else if ((n =? 194) || (n =? 195))%nat then
        match s' with
        | String d s'' =>
            let m := nat_of_ascii d in
            ((128 <=? m) && (m <? 192))%nat && latin1 s''
        | EmptyString => false
        end
      else false
  end.

(** [query.all()], as in the list endpoint. *)
Variable all :
  Query datetime -> list (GlucoseLevel datetime float) ->
  result (list (GlucoseLevel datetime float)).

(** [str] of an [int], of a [datetime] and of a [float], as [csv.writer]
    applies it to a cell that is not a string. *)
Variable str_int : Z -> string.
Variable str_datetime : datetime -> string.
Variable str_float : float -> string.

(** A cell as [csv.writer] takes it: [None] is written as the empty
    string. *)
Definition cell {A : Type} (str : A -> string) (value : option A) : string :=
  match value with
  | Some v => str v
  | None => EmptyString
  end.

(** The header [export_data] writes. *)
Definition export_headers : row := ["id"; "user_id"; "timestamp"; "glucose_value"].

(** [[row.id, row.user_id, row.timestamp, row.glucose_value]] *)
Definition export_row (g : GlucoseLevel datetime float) : row :=
  [cell str_int (models.id g); cell (fun s : string => s) (models.user_id g);
   cell str_datetime (models.timestamp g); cell str_float (models.glucose_value g)].

(** What the export endpoint answers with.  The body of the streaming
    response is given as the rows handed to [csv.writer], in the order they
    were written. *)
Inductive export_answer : Type :=
| StreamingResponse (body : list row) (content_disposition : string)
| JSONMessage (status_code : Z) (message : string).

(** [db.query(GlucoseLevel).filter(GlucoseLevel.user_id == user_id)] *)
Definition export_query (user_id : string) : Query datetime :=
  mkQuery [user_id_eq datetime user_id] [] None None.

(** [GET /api/v1/export-data/]: both error answers are returned, not
    raised.  The streaming response is built inside the [try], and building
    it encodes the value of its header as latin-1: a [user_id] that does
    not encode raises there and ends in the 500 answer like a failure of the
    engine. *)
Definition export_data (user_id : string) : M datetime float export_answer :=
  fun db =>
    match all (export_query user_id) (table db) with
    | Raise _ =>
        (Return (JSONMessage 500 "Failed to export data due to an internal error"), db)
    | Return [] =>
        (Return (JSONMessage 404 "No glucose levels found for the specified user ID"), db)
    | Return results =>
        let content_disposition :=
          ("attachment; filename=glucose_levels_" ++ user_id ++ ".csv")%string in
        if latin1 content_disposition
        then (Return (StreamingResponse
                        (export_headers :: map export_row results)
                        content_disposition),
              db)
        else (Return (JSONMessage 500 "Failed to export data due to an internal error"),
              db)
    end.

End Endpoints.

(** The rows a reader has yet to yield. *)
Fixpoint rows_of (rd : reader) : list row :=
  match rd with
  | Exhausted | Broken => []
  | Yield r rest => r :: rows_of rest
  end.

(** The rows of an upload: none when its bytes do not decode. *)
Definition rows_of_content (c : upload_content) : list row :=
  match c with
  | NotUtf8 => []
  | Utf8 rd => rows_of rd
  end.

(** *** A reference instance of [str]

    For running the export on concrete tables: [str] of an [int], of a
    [datetime] without seconds ([YYYY-MM-DD HH:MM:00]) and of a [float]
    that is a non-negative whole number ([105.0]). *)

Definition ref_str_int (i : Z) : string := NilZero.string_of_int (Z.to_int i).

Definition ref_str_nat (n : nat) : string := NilZero.string_of_uint (Nat.to_uint n).

Definition pad (width : nat) (s : string) : string :=
  (string_of_list_ascii (repeat "0"%char (width - String.length s)) ++ s)%string.

Definition ref_str_datetime (d : ref_datetime) : string :=
  (pad 4 (ref_str_nat (year d)) ++ "-" ++ pad 2 (ref_str_nat (month d)) ++ "-"
   ++ pad 2 (ref_str_nat (day d)) ++ " " ++ pad 2 (ref_str_nat (hour d)) ++ ":"
   ++ pad 2 (ref_str_nat (minute d)) ++ ":00")%string.

Definition ref_str_float (v : nat) : string := (ref_str_nat v ++ ".0")%string.

(** The export at the reference instance, on an engine that answers with
    the whole table. *)
Definition ref_export_data :=
  export_data whole_table ref_str_int ref_str_datetime ref_str_float.

(** A pending record that was read off a row: it has no id yet, carries
    the user [uid], and its timestamp and value are what the two library
    calls make of two cells of one of the [rows]. *)
Definition read_from (datetime float : Type)
           (strptime : string -> option datetime)
           (float_of_str : string -> option float)
           (uid : string) (rows : list row)
           (g : models.GlucoseLevel datetime float) : Prop :=
  exists r t v T V,
    In r rows /\ In t r /\ In v r
    /\ strptime t = Some T /\ float_of_str v = Some V
    /\ g = models.mkGlucoseLevel None (Some uid) (Some T) (Some V).

(** No character of [s] is [c]. *)
Fixpoint free_of (c : ascii) (s : string) : Prop :=
  match s with
  | EmptyString => True
  | String a s' => a <> c /\ free_of c s'
  end.

(** Removing the occurrences of a pattern, the way a reader does it by
    hand: walk the text from the left; where the pattern starts, drop it and
    go on behind it; elsewhere keep the character. *)
Inductive removed (old : string) : string -> string -> Prop :=
| removed_end : removed old "" ""
| removed_hit : forall s r,
    removed old s r -> removed old (old ++ s) r
| removed_keep : forall c s r,
    startswith old (String c s) = false ->
    removed old s r -> removed old (String c s) (String c r).

Unset Implicit Arguments.

(* ================================================================= *)
(** ** The builtins do what their names say *)

Lemma ascii_eqb_true (a b : ascii) : Ascii.eqb a b = true -> a = b.
Proof. apply Ascii.eqb_eq. Qed.

Lemma startswith_app (p t : string) : startswith p (p ++ t)%string = true.
Proof.
  induction p as [|a p IH]; simpl; [reflexivity|].
  now rewrite Ascii.eqb_refl, IH.
Qed.

Lemma startswith_spec (p s : string) :
  startswith p s = true <-> exists t, s = (p ++ t)%string.
Proof.
  split.
  - revert s; induction p as [|a p IH]; intros s H; simpl in *.
    + now exists s.
    + destruct s as [|b s]; [discriminate|].
      apply andb_true_iff in H as [Hab Hps].
      apply ascii_eqb_true in Hab; subst b.
      destruct (IH _ Hps) as [t ->]. now exists t.
  - intros [t ->]. apply startswith_app.
Qed.

Lemma endswith_spec (suffix s : string) :
  endswith suffix s = true <-> exists p, s = (p ++ suffix)%string.
Proof.
  split.
  - induction s as [|c s IH]; simpl; intros H.
    + rewrite orb_false_r in H. destruct suffix; [|discriminate]. now exists "".
    + apply orb_true_iff in H as [H|H].
      * change (String.eqb (String c s) suffix = true) in H.
        apply String.eqb_eq in H. subst. now exists "".
      * destruct (IH H) as [p ->]. now exists (String c p).
  - intros [p ->]. induction p as [|c p IH].
    + change ("" ++ suffix)%string with suffix.
      destruct suffix as [|a u]; [reflexivity|].
      change (endswith (String a u) (String a u))
        with (String.eqb (String a u) (String a u) || endswith (String a u) u).
      now rewrite String.eqb_refl.
    + change (endswith suffix (String c p ++ suffix)%string)
        with (String.eqb (String c (p ++ suffix)) suffix || endswith suffix (p ++ suffix)%string).
      rewrite IH. apply orb_true_r.
Qed.

Lemma contains_here (sub s : string) :
  startswith sub s = true -> contains sub s = true.
Proof. intros H. destruct s; simpl; now rewrite H. Qed.

Lemma contains_spec (sub s : string) :
  contains sub s = true <-> exists a b, s = (a ++ sub ++ b)%string.
Proof.
  split.
  - induction s as [|c s IH]; simpl; intros H.
    + rewrite orb_false_r in H. apply startswith_spec in H as [t Ht].
      now exists "", t.
    + apply orb_true_iff in H as [H|H].
      * apply startswith_spec in H as [t Ht]. now exists "", t.
      * destruct (IH H) as (a & b & ->). now exists (String c a), b.
  - intros (a & b & ->). induction a as [|c a IH]; simpl.
    + apply contains_here, startswith_app.
    + rewrite IH. apply orb_true_r.
Qed.

Lemma split_not_nil (sep : ascii) (s : string) : split sep s <> [].
Proof.
  induction s as [|c s IH]; simpl; [discriminate|].
  destruct (Ascii.eqb c sep); [discriminate|].
  destruct (split sep s); [congruence|discriminate].
Qed.

(** The first piece of a split is the text before the first separator. *)
Lemma split_first (sep : ascii) (p t : string) :
  free_of sep p ->
  split sep (p ++ String sep t)%string = p :: split sep t.
Proof.
  induction p as [|a p IH]; simpl; intros H.
  - now rewrite Ascii.eqb_refl.
  - destruct H as [Ha Hp].
    destruct (Ascii.eqb a sep) eqn:E.
    + apply ascii_eqb_true in E. contradiction.
    + now rewrite (IH Hp).
Qed.

Lemma getitem_split_first (sep : ascii) (p t : string) :
  free_of sep p ->
  getitem (split sep (p ++ String sep t)%string) 0 = Return p.
Proof. intros H. now rewrite (split_first sep p t H). Qed.

(** *** [str.replace] removes occurrences from the left *)

Lemma replace_from_skip (old new u s : string) :
  replace_from old new (String.length u) (u ++ s)%string = replace old new s.
Proof.
  induction u as [|c u IH]; simpl; [reflexivity|exact IH].
Qed.

Lemma replace_hit (old new s : string) :
  old <> "" ->
  replace old new (old ++ s)%string = (new ++ replace old new s)%string.
Proof.
  intros Hold. destruct old as [|a o]; [congruence|].
  unfold replace at 1.
  change ((String a o ++ s)%string) with (String a (o ++ s)%string).
  cbn [replace_from].
  change (String a (o ++ s)%string) with ((String a o ++ s)%string).
  rewrite startswith_app.
  replace (String.length (String a o) - 1) with (String.length o)
    by (simpl; lia).
  now rewrite replace_from_skip.
Qed.

Lemma replace_keep (old new : string) (c : ascii) (s : string) :
  startswith old (String c s) = false ->
  replace old new (String c s) = String c (replace old new s).
Proof.
  intros H. unfold replace. cbn [replace_from]. now rewrite H.
Qed.

Lemma length_append (a b : string) :
  String.length (a ++ b)%string = String.length a + String.length b.
Proof. induction a as [|c a IH]; simpl; [reflexivity|now rewrite IH]. Qed.

Lemma replace_removed_bounded (old : string) (n : nat) :
  old <> "" ->
  forall s, String.length s <= n -> removed old s (replace old "" s).
Proof.
  intros Hold. induction n as [|n IH]; intros s Hlen.
  - destruct s; [constructor|simpl in Hlen; lia].
  - destruct s as [|c s]; [constructor|].
    destruct (startswith old (String c s)) eqn:E.
    + apply startswith_spec in E as [t Ht]. rewrite Ht.
      rewrite (replace_hit old "" t Hold).
      change ("" ++ replace old "" t)%string with (replace old "" t).
      apply removed_hit, IH.
      assert (L : String.length (String c s) = String.length old + String.length t)
        by (rewrite Ht; apply length_append).
      destruct old; [congruence|]. simpl in *. lia.
    + rewrite (replace_keep old "" c s E).
      apply removed_keep; [exact E|]. apply IH. simpl in Hlen. lia.
Qed.

Lemma replace_removed (old s : string) :
  old <> "" -> removed old s (replace old "" s).
Proof.
  intros Hold. now apply (replace_removed_bounded old (String.length s)).
Qed.

(** The removal has one outcome, so [replace] is the only function that
    satisfies [removed]. *)
Lemma removed_replace (old s r : string) :
  old <> "" -> removed old s r -> r = replace old "" s.
Proof.
  intros Hold H. induction H as [|s r _ IH|c s r E _ IH].
  - reflexivity.
  - now rewrite (replace_hit old "" s Hold).
  - now rewrite (replace_keep old "" c s E), IH.
Qed.

(** The removal is one pass for each pattern: what is left can itself
    spell a pattern, and taking out [.asc] can bring a [.desc] together. *)
Lemma sort_column_examples :
  sort_column "timestamp.desc" = "timestamp"
  /\ sort_column "glucose_value.asc" = "glucose_value"
  /\ sort_column "timestamp" = "timestamp"
  /\ sort_column "a.d.ascesc" = "a"
  /\ sort_column ".a.descsc" = ".asc".
Proof. repeat split. Qed.

(** The direction looks at the whole string, column name included. *)
Lemma sort_direction_examples :
  sort_direction "timestamp.desc" = desc
  /\ sort_direction "timestamp.asc" = asc
  /\ sort_direction "timestamp" = asc
  /\ sort_direction "description.asc" = desc.
Proof. repeat split. Qed.

(* ================================================================= *)
(** ** The list endpoint *)

Section ListEndpoint.

Variable datetime : Type.
Variable float : Type.
Variable inherited_attr : string -> bool.
Variable all :
  Query datetime -> list (GlucoseLevel datetime float) ->
  result (list (GlucoseLevel datetime float)).

Lemma sort_direction_desc (sort : string) :
  sort_direction sort = desc <-> exists a b, sort = (a ++ "desc" ++ b)%string.
Proof.
  unfold sort_direction. rewrite <- contains_spec.
  destruct (contains "desc" sort); split; intros H; congruence.
Qed.

Lemma sort_column_removed (sort : string) :
  exists mid, removed ".asc" sort mid /\ removed ".desc" mid (sort_column sort).
Proof.
  exists (replace ".asc" "" sort). split; apply replace_removed; discriminate.
Qed.

(** C10. In the list endpoint the direction is [desc] exactly when the sort
    string has [desc] somewhere in it, and [asc] otherwise; the sort column
    is the sort string with the occurrences of [.asc] removed and then those
    of [.desc], and it is the only string so obtained; and when [GlucoseLevel] has no attribute of that name the
    query goes to the engine with its filters and its page but with no
    ordering at all, the handler raising nothing of its own. *)
Theorem get_glucose_levels_sort_parameter
  (user_id : string) (start stop : option datetime) (page page_size : Z)
  (sort : string) (db : Session datetime float) :
  (sort_direction sort = desc <-> exists a b, sort = (a ++ "desc" ++ b)%string)
  /\ (sort_direction sort = asc <-> ~ exists a b, sort = (a ++ "desc" ++ b)%string)
  /\ (exists mid,
        removed ".asc" sort mid /\ removed ".desc" mid (sort_column sort))
  /\ (forall mid col,
        removed ".asc" sort mid -> removed ".desc" mid col ->
        col = sort_column sort)
  /\ (hasattr_GlucoseLevel inherited_attr (sort_column sort) = false ->
      ordering (levels_query inherited_attr user_id start stop page page_size sort) = []
      /\ levels_query inherited_attr user_id start stop page page_size sort
         = with_limit
             (with_offset
                (mkQuery
                   ([user_id_eq datetime user_id]
                    ++ match start with Some t => [timestamp_ge t] | None => [] end
                    ++ match stop with Some t => [timestamp_le t] | None => [] end)
                   [] None None)
                ((page - 1) * page_size)%Z)
             page_size
      /\ forall levels,
           all (levels_query inherited_attr user_id start stop page page_size sort)
               (table db) = Return levels ->
           exists answer,
             get_glucose_levels inherited_attr all user_id start stop page
               page_size sort db = (Return answer, db)).
Proof.
  split; [apply sort_direction_desc|].
  split.
  { rewrite <- sort_direction_desc. destruct (sort_direction sort); split;
      intros H; congruence. }
  split; [apply sort_column_removed|].
  split.
  { intros mid col Hmid Hcol.
    apply removed_replace in Hmid; [|discriminate]. subst mid.
    apply removed_replace in Hcol; [exact Hcol|discriminate]. }
  intros Hattr. unfold levels_query. rewrite Hattr.
  split; [destruct start, stop; reflexivity|].
  split; [destruct start, stop; reflexivity|].
  intros levels Hall. unfold get_glucose_levels, levels_query.
  rewrite Hattr, Hall. destruct levels; eexists; reflexivity.
Qed.

End ListEndpoint.

(* ================================================================= *)
(** ** The ingestion pipeline *)

Lemma index_from_absent (x : string) (l : list string) (i : nat) :
  ~ In x l -> index_from x l i = Raise ValueError.
Proof.
  revert i; induction l as [|y l IH]; intros i H; simpl; [reflexivity|].
  destruct (String.eqb y x) eqn:E.
  - apply String.eqb_eq in E. subst. exfalso. apply H. now left.
  - apply IH. intros Hin. apply H. now right.
Qed.

Lemma index_from_found (x : string) (l : list string) (i j : nat) :
  index_from x l i = Return j ->
  i <= j /\ nth_error l (j - i) = Some x.
Proof.
  revert i; induction l as [|y l IH]; intros i H; simpl in H; [discriminate|].
  destruct (String.eqb y x) eqn:E.
  - apply String.eqb_eq in E. injection H as <-. subst.
    split; [lia|]. now rewrite Nat.sub_diag.
  - destruct (IH _ H) as [Hle Hnth]. split; [lia|].
    replace (j - i) with (S (j - S i)) by lia. exact Hnth.
Qed.

(** [headers.index(name)] is a position that holds [name]. *)
Lemma index_found (x : string) (l : list string) (j : nat) :
  index x l = Return j -> nth_error l j = Some x.
Proof.
  intros H. apply index_from_found in H as [_ H].
  now rewrite Nat.sub_0_r in H.
Qed.

Lemma index_absent (x : string) (l : list string) :
  ~ In x l -> index x l = Raise ValueError.
Proof. apply index_from_absent. Qed.

Section Ingestion.

Variable datetime : Type.
Variable float : Type.
Context {storage : Storage datetime float}.
Variable strptime : string -> option datetime.
Variable float_of_str : string -> option float.

Implicit Types (db : Session datetime float) (rd rest : reader) (r : row).

(** *** The header scan *)

Lemma find_headers_skip (pre : list row) rd db :
  Forall (fun r => List.length r <> header_width) pre ->
  find_headers (yield_all pre rd) db = find_headers rd db.
Proof.
  induction 1 as [|r pre Hr _ IH]; simpl; [reflexivity|].
  apply Nat.eqb_neq in Hr. now rewrite Hr.
Qed.

Lemma find_headers_hit r rest db :
  List.length r = header_width ->
  find_headers (Yield r rest) db = (Return (Some r, rest), db).
Proof. intros H. simpl. apply Nat.eqb_eq in H. now rewrite H. Qed.

Lemma find_headers_none (rows : list row) db :
  Forall (fun r => List.length r <> header_width) rows ->
  find_headers (yield_all rows Exhausted) db = (Return (None, Exhausted), db).
Proof. intros H. now rewrite find_headers_skip. Qed.

Lemma find_headers_broken (rows : list row) db :
  Forall (fun r => List.length r <> header_width) rows ->
  find_headers (yield_all rows Broken) db = (Raise CsvError, db).
Proof. intros H. now rewrite find_headers_skip. Qed.

Lemma yield_all_app (a b : list row) rd :
  yield_all (a ++ b) rd = yield_all a (yield_all b rd).
Proof. unfold yield_all. apply fold_right_app. Qed.

(** *** One data row *)

Lemma load_row_skip (uid : string) (ti gi : nat) r (t g : string) db :
  nth_error r ti = Some t -> nth_error r gi = Some g ->
  t = "" \/ g = "" \/ strptime t = None \/ float_of_str g = None ->
  load_row strptime float_of_str uid ti gi r db = (Return tt, db).
Proof.
  intros Ht Hg H. unfold load_row, bind, lift, getitem. rewrite Ht, Hg.
  destruct t as [|a t]; [reflexivity|].
  destruct g as [|b g]; [reflexivity|].
  cbn [truthy andb]. unfold parse_and_add, try_except, bind, or_ValueError.
  destruct H as [H|[H|[H|H]]]; try discriminate.
  - rewrite H. reflexivity.
  - destruct (strptime (String a t)); [cbn; rewrite H|]; reflexivity.
Qed.

Lemma load_row_add (uid : string) (ti gi : nat) r (t g : string)
      (T : datetime) (G : float) db :
  nth_error r ti = Some t -> nth_error r gi = Some g ->
  t <> "" -> g <> "" ->
  strptime t = Some T -> float_of_str g = Some G ->
  load_row strptime float_of_str uid ti gi r db
  = add (models.mkGlucoseLevel None (Some uid) (Some T) (Some G)) db.
Proof.
  intros Ht Hg Hnt Hng HT HG. unfold load_row, bind, lift, getitem.
  rewrite Ht, Hg.
  destruct t; [congruence|]. destruct g; [congruence|].
  cbn [truthy andb]. unfold parse_and_add, try_except, bind, or_ValueError.
  rewrite HT. cbn. rewrite HG. reflexivity.
Qed.

Lemma load_row_short (uid : string) (ti gi : nat) r db :
  nth_error r ti = None \/ nth_error r gi = None ->
  load_row strptime float_of_str uid ti gi r db = (Raise IndexError, db).
Proof.
  intros H. unfold load_row, bind, lift, getitem.
  destruct (nth_error r ti); [|reflexivity].
  destruct H as [H|H]; [discriminate|]. now rewrite H.
Qed.

(** *** The data loop *)

Lemma session_eta db : mkSession (table db) (new db) (failing db) = db.
Proof. now destruct db. Qed.

Lemma has_both_cells_nth (ti gi : nat) r :
  has_both_cells ti gi r ->
  exists t g, nth_error r ti = Some t /\ nth_error r gi = Some g.
Proof.
  intros [Ht Hg].
  apply nth_error_Some in Ht. apply nth_error_Some in Hg.
  destruct (nth_error r ti) as [t|]; [|congruence].
  destruct (nth_error r gi) as [g|]; [|congruence].
  now exists t, g.
Qed.

(** The loop treats the reader's rows one after the other: a row that the
    body leaves alone can be taken out of the reader. *)
Lemma load_rows_drop (uid : string) (ti gi : nat) (before : list row) r rest :
  (forall db, load_row strptime float_of_str uid ti gi r db = (Return tt, db)) ->
  forall db,
    load_rows strptime float_of_str uid ti gi (yield_all before (Yield r rest)) db
    = load_rows strptime float_of_str uid ti gi (yield_all before rest) db.
Proof.
  intros Hr. induction before as [|a before IH]; intros db; simpl.
  - unfold bind. now rewrite Hr.
  - unfold bind.
    destruct (load_row strptime float_of_str uid ti gi a db) as [[[]|e] db'];
      [apply IH|reflexivity].
Qed.

(** Nothing in the loop touches the table or the engine. *)
Lemma load_row_table (uid : string) (ti gi : nat) r db :
  table (snd (load_row strptime float_of_str uid ti gi r db)) = table db
  /\ failing (snd (load_row strptime float_of_str uid ti gi r db)) = failing db.
Proof.
  unfold load_row, bind, lift.
  destruct (getitem r ti) as [t|]; [|now split].
  destruct (getitem r gi) as [g|]; [|now split].
  destruct (truthy t && truthy g); [|now split].
  unfold parse_and_add, try_except, bind, or_ValueError.
  destruct (strptime t); [|now split].
  cbn. destruct (float_of_str g); now split.
Qed.

Lemma load_rows_table (uid : string) (ti gi : nat) rd db :
  table (snd (load_rows strptime float_of_str uid ti gi rd db)) = table db
  /\ failing (snd (load_rows strptime float_of_str uid ti gi rd db)) = failing db.
Proof.
  revert db; induction rd as [| |r rest IH]; intros db; simpl; try now split.
  unfold bind.
  pose proof (load_row_table uid ti gi r db) as [Ht Hf].
  destruct (load_row strptime float_of_str uid ti gi r db) as [[[]|e] db'];
    simpl in *; [|now split].
  destruct (IH db') as [Ht' Hf']. split; congruence.
Qed.

(** A row without a cell in one of the two columns ends the loop with
    [IndexError], whatever comes before or after it. *)
Lemma load_rows_short (uid : string) (ti gi : nat) (before : list row) r rest db :
  nth_error r ti = None \/ nth_error r gi = None ->
  exists e db',
    load_rows strptime float_of_str uid ti gi (yield_all before (Yield r rest)) db
    = (Raise e, db').
Proof.
  intros Hr. revert db; induction before as [|a before IH]; intros db; simpl.
  - unfold bind. rewrite (load_row_short uid ti gi r db Hr).
    now eexists _, _.
  - unfold bind.
    destruct (load_row strptime float_of_str uid ti gi a db) as [[[]|e] db'].
    + apply IH.
    + now eexists _, _.
Qed.

(** *** Resolving the two columns *)

Lemma resolve_columns_found (headers : row) (ti gi : nat) db :
  index timestamp_column headers = Return ti ->
  index glucose_value_column headers = Return gi ->
  resolve_columns (Some headers) db = (Return (ti, gi), db).
Proof.
  intros Ht Hg. unfold resolve_columns, try_except, bind, headers_index, lift.
  now rewrite Ht, Hg.
Qed.

Lemma index_from_result (x : string) (l : list string) (i : nat) :
  (exists j, index_from x l i = Return j) \/ index_from x l i = Raise ValueError.
Proof.
  revert i; induction l as [|y l IH]; intros i; simpl; [now right|].
  destruct (String.eqb y x); [left; now exists i|apply IH].
Qed.

(** A header without one of the names: the inner handler raises the 400. *)
Lemma resolve_columns_missing (headers : row) db :
  index timestamp_column headers = Raise ValueError
  \/ index glucose_value_column headers = Raise ValueError ->
  resolve_columns (Some headers) db
  = (Raise (HTTPException 400 "Required columns not found in CSV file"), db).
Proof.
  intros H. unfold resolve_columns, try_except, bind, headers_index, lift.
  destruct H as [H|H].
  - now rewrite H.
  - destruct (index_from_result timestamp_column headers 0) as [[j Hj]|Hj];
      unfold index in *; rewrite Hj; [rewrite H|]; reflexivity.
Qed.

(** No header at all: [None.index] is an [AttributeError], which the inner
    handler does not catch. *)
Lemma resolve_columns_None db :
  resolve_columns None db = (Raise AttributeError, db).
Proof. reflexivity. Qed.

(** *** The whole handler, once the header row is known *)

Lemma load_data_from_headers (name uid : string) (pre : list row)
      (headers : row) (ti gi : nat) rd db :
  endswith ".csv" name = true ->
  getitem (split "." name) 0 = Return uid ->
  Forall (fun r => List.length r <> header_width) pre ->
  List.length headers = header_width ->
  index timestamp_column headers = Return ti ->
  index glucose_value_column headers = Return gi ->
  load_data strptime float_of_str
    (mkUploadFile name (Utf8 (yield_all pre (Yield headers rd)))) db
  = match load_rows strptime float_of_str uid ti gi rd db with
    | (Return _, db') =>
        match commit db' with
        | (Return _, db'') => (Return "Data loaded successfully", db'')
        | (Raise _, db'') => (Raise failed, db'')
        end
    | (Raise _, db') => (Raise failed, db')
    end.
Proof.
  intros Hcsv Huid Hpre Hw Hti Hgi.
  unfold load_data. cbn [filename content]. rewrite Hcsv. cbn [negb].
  unfold try_except, load_data_body, bind, lift. cbn [filename content decode].
  rewrite Huid. unfold ret at 1.
  rewrite (find_headers_skip pre _ db Hpre), (find_headers_hit headers rd db Hw).
  cbn [fst snd].
  rewrite (resolve_columns_found headers ti gi db Hti Hgi). cbn [fst snd].
  destruct (load_rows strptime float_of_str uid ti gi rd db) as [[[]|e] db'];
    [|reflexivity].
  destruct (commit db') as [[w|e] db'']; reflexivity.
Qed.

(** Two uploads of one name whose readers give the same header and whose
    data loops end alike are answered alike. *)
Lemma load_data_same_loop (name : string) (pre : list row) (headers : row)
      (ti gi : nat) (rd1 rd2 : reader) db :
  Forall (fun r => List.length r <> header_width) pre ->
  List.length headers = header_width ->
  index timestamp_column headers = Return ti ->
  index glucose_value_column headers = Return gi ->
  (forall uid db',
     load_rows strptime float_of_str uid ti gi rd1 db'
     = load_rows strptime float_of_str uid ti gi rd2 db') ->
  load_data strptime float_of_str
    (mkUploadFile name (Utf8 (yield_all pre (Yield headers rd1)))) db
  = load_data strptime float_of_str
    (mkUploadFile name (Utf8 (yield_all pre (Yield headers rd2)))) db.
Proof.
  intros Hpre Hw Hti Hgi Hloop.
  unfold load_data. cbn [filename content].
  destruct (negb (endswith ".csv" name)); [reflexivity|].
  unfold try_except, load_data_body, bind, lift. cbn [filename content decode].
  destruct (getitem (split "." name) 0) as [uid|e]; [|reflexivity].
  unfold ret at 1 3.
  rewrite !(find_headers_skip pre _ db Hpre), !find_headers_hit by exact Hw.
  cbn [fst snd].
  rewrite (resolve_columns_found headers ti gi db Hti Hgi). cbn [fst snd].
  now rewrite Hloop.
Qed.

Section ParsersRejectEmpty.

(** Both library calls raise [ValueError] on the empty string. *)
Hypothesis strptime_empty : strptime "" = None.
Hypothesis float_of_str_empty : float_of_str "" = None.

Lemma load_row_wide (uid : string) (ti gi : nat) r db :
  has_both_cells ti gi r ->
  load_row strptime float_of_str uid ti gi r db
  = (Return tt,
     mkSession (table db)
               (new db ++ row_records strptime float_of_str uid ti gi r)
               (failing db)).
Proof.
  intros H. destruct (has_both_cells_nth ti gi r H) as (t & g & Ht & Hg).
  unfold row_records. rewrite Ht, Hg.
  destruct (strptime t) as [T|] eqn:ET.
  - destruct (float_of_str g) as [G|] eqn:EG.
    + apply (load_row_add uid ti gi r t g T G db); auto; congruence.
    + rewrite app_nil_r, session_eta.
      apply (load_row_skip uid ti gi r t g db); auto.
  - rewrite app_nil_r, session_eta.
    apply (load_row_skip uid ti gi r t g db); auto.
Qed.

Lemma load_rows_wide (uid : string) (ti gi : nat) (data : list row) db :
  Forall (has_both_cells ti gi) data ->
  load_rows strptime float_of_str uid ti gi (yield_all data Exhausted) db
  = (Return tt,
     mkSession (table db)
               (new db ++ flat_map (row_records strptime float_of_str uid ti gi) data)
               (failing db)).
Proof.
  intros H. revert db; induction H as [|r data Hr _ IH]; intros db; simpl.
  - now rewrite app_nil_r, session_eta.
  - unfold bind. rewrite (load_row_wide uid ti gi r db Hr).
    rewrite IH. simpl. now rewrite app_assoc.
Qed.

(** C1, as the handler has it.  Take an upload whose name ends in [.csv],
    whose text decodes and is read to its end without [csv.Error], whose
    first row of 19 cells holds both column names, and whose later rows all
    have a cell in both columns; let the commit go through.  Then the
    request succeeds and the table gains, in file order, exactly one record
    for each later row whose timestamp cell and value cell both parse, and
    none for any other row; each of them carries as [user_id] the part of
    the file name before its first dot. *)
Theorem load_data_persists_valid_rows
  (uid tail : string) (pre data : list row) (headers : row) (ti gi : nat) db :
  free_of "." uid ->
  endswith ".csv" (uid ++ "." ++ tail) = true ->
  Forall (fun r => List.length r <> header_width) pre ->
  List.length headers = header_width ->
  index timestamp_column headers = Return ti ->
  index glucose_value_column headers = Return gi ->
  Forall (has_both_cells ti gi) data ->
  failing db = None ->
  load_data strptime float_of_str
    (mkUploadFile (uid ++ "." ++ tail)
                  (Utf8 (yield_all (pre ++ headers :: data) Exhausted))) db
  = (Return "Data loaded successfully",
     mkSession
       (table db
        ++ number (max_id (table db) + 1)
             (new db
              ++ flat_map (row_records strptime float_of_str uid ti gi) data))
       [] None)
  /\ forall r t g T G,
       In r data ->
       nth_error r ti = Some t -> nth_error r gi = Some g ->
       strptime t = Some T -> float_of_str g = Some G ->
       row_records strptime float_of_str uid ti gi r
       = [models.mkGlucoseLevel None (Some uid) (Some T) (Some G)].
Proof.
  intros Hfree Hcsv Hpre Hw Hti Hgi Hdata Hok. split.
  - rewrite yield_all_app. cbn [yield_all fold_right].
    rewrite (load_data_from_headers (uid ++ "." ++ tail) uid pre headers ti gi
               _ db Hcsv (getitem_split_first "." uid tail Hfree)
               Hpre Hw Hti Hgi).
    fold (yield_all data Exhausted).
    rewrite (load_rows_wide uid ti gi data db Hdata).
    unfold commit, inserted. cbn [failing table new]. now rewrite Hok.
  - intros r t g T G _ Ht Hg HT HG. unfold row_records.
    now rewrite Ht, Hg, HT, HG.
Qed.

End ParsersRejectEmpty.


(** C8. A data row whose timestamp cell or value cell is the empty string
    is passed over in silence: the loop body leaves the session as it found
    it and raises nothing, and the request is answered, and the session
    left, exactly as if the row were not in the file. *)
Theorem load_data_skips_blank_row
  (name uid : string) (pre before : list row) (headers blank : row)
  (ti gi : nat) (t g : string) rest db :
  Forall (fun r => List.length r <> header_width) pre ->
  List.length headers = header_width ->
  index timestamp_column headers = Return ti ->
  index glucose_value_column headers = Return gi ->
  nth_error blank ti = Some t -> nth_error blank gi = Some g ->
  t = "" \/ g = "" ->
  load_row strptime float_of_str uid ti gi blank db = (Return tt, db)
  /\ load_data strptime float_of_str
       (mkUploadFile name
          (Utf8 (yield_all (pre ++ headers :: before) (Yield blank rest)))) db
     = load_data strptime float_of_str
       (mkUploadFile name
          (Utf8 (yield_all (pre ++ headers :: before) rest))) db.
Proof.
  intros Hpre Hw Hti Hgi Ht Hg Hblank.
  assert (Hskip : forall u d,
            load_row strptime float_of_str u ti gi blank d = (Return tt, d)).
  { intros u d. apply (load_row_skip u ti gi blank t g d Ht Hg). tauto. }
  split; [apply Hskip|].
  rewrite !yield_all_app. cbn [yield_all fold_right].
  apply (load_data_same_loop name pre headers ti gi _ _ db Hpre Hw Hti Hgi).
  intros u d. apply load_rows_drop. apply Hskip.
Qed.

(** C6. The header is the first row of exactly 19 cells: the scan passes
    every row of another width, stops at that row and leaves the reader
    just behind it; and the rows it passed count for nothing, the request
    being answered, and the session left, as if the file began at the
    header. *)
Theorem load_data_header_is_first_row_of_width
  (name : string) (pre : list row) (headers : row) rest db :
  Forall (fun r => List.length r <> header_width) pre ->
  List.length headers = header_width ->
  find_headers (yield_all pre (Yield headers rest)) db
  = (Return (Some headers, rest), db)
  /\ load_data strptime float_of_str
       (mkUploadFile name (Utf8 (yield_all pre (Yield headers rest)))) db
     = load_data strptime float_of_str
       (mkUploadFile name (Utf8 (Yield headers rest))) db.
Proof.
  intros Hpre Hw. split.
  - rewrite (find_headers_skip pre _ db Hpre). now apply find_headers_hit.
  - unfold load_data. cbn [filename content].
    destruct (negb (endswith ".csv" name)); [reflexivity|].
    unfold try_except, load_data_body, bind, lift. cbn [filename content decode].
    destruct (getitem (split "." name) 0) as [uid|e]; [|reflexivity].
    unfold ret at 1 3. now rewrite (find_headers_skip pre _ db Hpre).
Qed.

(** C7. An upload whose name does not end in [.csv] is refused with
    status 400 and the detail [Unsupported file format]; the answer does not
    depend on the content, which is neither decoded nor read, and the
    session is left as it was. *)
Theorem load_data_rejects_other_extensions (file : UploadFile) db :
  endswith ".csv" (filename file) = false ->
  load_data strptime float_of_str file db
  = (Raise (HTTPException 400 "Unsupported file format"), db).
Proof. intros H. unfold load_data. now rewrite H. Qed.

End Ingestion.

(* ================================================================= *)
(** ** Requests that fail as a whole *)

Lemma getitem_split_0 (sep : ascii) (s : string) :
  exists piece, getitem (split sep s) 0 = Return piece.
Proof.
  pose proof (split_not_nil sep s) as H.
  destruct (split sep s) as [|piece pieces]; [congruence|].
  now exists piece.
Qed.

Section Failures.

Variable datetime : Type.
Variable float : Type.
Context {storage : Storage datetime float}.
Variable strptime : string -> option datetime.
Variable float_of_str : string -> option float.

Implicit Types (db : Session datetime float) (rd rest : reader) (r : row).

(** A header row without one of the two names: the 400 of the inner handler
    is raised inside the outer [try], whose [except Exception] catches it
    like any other exception and raises the 500. *)
Lemma load_data_missing_columns (name : string) (pre : list row)
      (headers : row) rest db :
  endswith ".csv" name = true ->
  Forall (fun r => List.length r <> header_width) pre ->
  List.length headers = header_width ->
  ~ In timestamp_column headers \/ ~ In glucose_value_column headers ->
  load_data strptime float_of_str
    (mkUploadFile name (Utf8 (yield_all pre (Yield headers rest)))) db
  = (Raise failed, db).
Proof.
  intros Hcsv Hpre Hw Hmiss.
  unfold load_data. cbn [filename content]. rewrite Hcsv. cbn [negb].
  unfold try_except, load_data_body, bind, lift. cbn [filename content decode].
  destruct (getitem_split_0 "." name) as [uid ->]. unfold ret at 1.
  rewrite find_headers_skip by exact Hpre. rewrite find_headers_hit by exact Hw.
  cbn [fst snd].
  rewrite resolve_columns_missing; [reflexivity|].
  destruct Hmiss as [H|H]; [left|right]; now apply index_absent.
Qed.

(** No row of 19 cells: [headers] stays [None], [None.index] raises
    [AttributeError], and the outer handler raises the 500. *)
Lemma load_data_no_header (name : string) (rows : list row) rd db :
  endswith ".csv" name = true ->
  Forall (fun r => List.length r <> header_width) rows ->
  rd = Exhausted \/ rd = Broken ->
  load_data strptime float_of_str
    (mkUploadFile name (Utf8 (yield_all rows rd))) db
  = (Raise failed, db).
Proof.
  intros Hcsv Hrows Hrd.
  unfold load_data. cbn [filename content]. rewrite Hcsv. cbn [negb].
  unfold try_except, load_data_body, bind, lift. cbn [filename content decode].
  destruct (getitem_split_0 "." name) as [uid ->]. unfold ret at 1.
  rewrite find_headers_skip by exact Hrows.
  destruct Hrd as [-> | ->]; reflexivity.
Qed.

(** A data row without a cell in one of the two columns: [row[idx]] raises
    [IndexError] outside the inner [try]; the request fails with the 500 and
    the table is as before, whatever the other rows hold. *)
Lemma load_data_short_row (name : string) (pre before : list row)
      (headers short : row) (ti gi : nat) rest db :
  endswith ".csv" name = true ->
  Forall (fun r => List.length r <> header_width) pre ->
  List.length headers = header_width ->
  index timestamp_column headers = Return ti ->
  index glucose_value_column headers = Return gi ->
  nth_error short ti = None \/ nth_error short gi = None ->
  let answer :=
    load_data strptime float_of_str
      (mkUploadFile name
         (Utf8 (yield_all (pre ++ headers :: before) (Yield short rest)))) db in
  fst answer = Raise failed /\ table (snd answer) = table db.
Proof.
  intros Hcsv Hpre Hw Hti Hgi Hshort answer. subst answer.
  destruct (getitem_split_0 "." name) as [uid Huid].
  rewrite yield_all_app. cbn [yield_all fold_right].
  rewrite (load_data_from_headers _ _ strptime float_of_str name uid pre headers
             ti gi _ db Hcsv Huid Hpre Hw Hti Hgi).
  fold (yield_all before (Yield short rest)).
  destruct (load_rows_short _ _ strptime float_of_str uid ti gi before short
              rest db Hshort) as (e & db' & E).
  pose proof (load_rows_table _ _ strptime float_of_str uid ti gi
                (yield_all before (Yield short rest)) db) as [Ht _].
  rewrite E in *. cbn in *. now split.
Qed.

End Failures.

(* ================================================================= *)
(** ** The handlers on sample uploads *)

Ltac other_widths := repeat constructor; discriminate.

Ltac both_cells := repeat constructor; unfold has_both_cells; cbn; lia.

(** An export of [alice]: a metadata line, the header, a good row, a row
    with an empty value, a row with a date in another format, a good row.
    The two good rows are persisted, under [alice]. *)
Lemma load_data_persists_valid_rows_alice :
  ref_load_data
    (upload "alice.csv"
       [metadata_row; sample_headers;
        valid_row; blank_value_row; bad_date_row; later_row])
    (ref_session [] None)
  = (Return "Data loaded successfully",
     mkSession [alice_105 (Some 1%Z); alice_98 (Some 2%Z)] [] None).
Proof.
  refine (proj1 (load_data_persists_valid_rows ref_datetime nat
                   ref_strptime ref_float eq_refl eq_refl
                   "alice" "csv" [metadata_row]
                   [valid_row; blank_value_row; bad_date_row; later_row]
                   sample_headers 2 4 (ref_session [] None)
                   _ _ _ _ _ _ _ _)).
  - cbn. repeat split; discriminate.
  - reflexivity.
  - other_widths.
  - reflexivity.
  - reflexivity.
  - reflexivity.
  - both_cells.
  - reflexivity.
Defined.

(** The claim of C1 needs its provisos.  In each of three uploads of
    [alice] the header has both names and the row after it parses, and yet
    the table is empty afterwards: a later row has two cells only; the
    commit fails; the reader raises after the row. *)
Lemma load_data_valid_row_not_persisted :
  endswith ".csv" "alice.csv" = true
  /\ List.length sample_headers = header_width
  /\ index timestamp_column sample_headers = Return 2
  /\ index glucose_value_column sample_headers = Return 4
  /\ row_records ref_strptime ref_float "alice" 2 4 valid_row = [alice_105 None]
  /\ ref_load_data (upload "alice.csv" [sample_headers; valid_row; short_row])
       (ref_session [] None)
     = (Raise failed, mkSession [] [alice_105 None] None)
  /\ ref_load_data (upload "alice.csv" [sample_headers; valid_row])
       (ref_session [] (Some OperationalError))
     = (Raise failed, mkSession [] [] (Some OperationalError))
  /\ ref_load_data
       (mkUploadFile "alice.csv" (Utf8 (yield_all [sample_headers; valid_row] Broken)))
       (ref_session [] None)
     = (Raise failed, mkSession [] [alice_105 None] None).
Proof. repeat split; vm_compute; reflexivity. Qed.

(** C2 on the code.  The header of this upload has 19 cells and neither
    name.  Resolving the columns raises the 400 with the detail of the
    missing columns, but the request is answered with the 500 of the outer
    handler; nothing is persisted. *)
Theorem load_data_missing_columns_answer :
  resolve_columns (Some other_headers) (ref_session [] None)
  = (Raise (HTTPException 400 "Required columns not found in CSV file"),
     ref_session [] None)
  /\ ref_load_data (upload "alice.csv" [metadata_row; other_headers; valid_row])
       (ref_session [] None)
     = (Raise (HTTPException 500 "An error occurred while processing the file"),
        ref_session [] None).
Proof. split; vm_compute; reflexivity. Qed.

(** C3 on the code.  A row of two cells after the header makes the request
    fail with the 500 and leaves the table empty, the good rows around it
    included; the same file with a row of empty cells in its place is
    loaded, and both good rows are persisted. *)
Theorem load_data_short_row_answer :
  ref_load_data
    (upload "alice.csv" [sample_headers; valid_row; short_row; later_row])
    (ref_session [] None)
  = (Raise (HTTPException 500 "An error occurred while processing the file"),
     mkSession [] [alice_105 None] None)
  /\ ref_load_data
       (upload "alice.csv" [sample_headers; valid_row; sample_row "" ""; later_row])
       (ref_session [] None)
     = (Return "Data loaded successfully",
        mkSession [alice_105 (Some 1%Z); alice_98 (Some 2%Z)] [] None).
Proof. split; vm_compute; reflexivity. Qed.

(** C5 on the code.  No row of this upload has 19 cells.  The header stays
    [None], resolving the columns raises [AttributeError], which is not the
    error of the missing columns, and the request is answered with the 500
    of the outer handler; nothing is persisted. *)
Theorem load_data_no_header_answer :
  find_headers (yield_all [metadata_row; short_row] Exhausted) (ref_session [] None)
  = (Return (None, Exhausted), ref_session [] None)
  /\ resolve_columns None (ref_session [] None)
     = (Raise AttributeError, ref_session [] None)
  /\ ref_load_data (upload "carol.csv" [metadata_row; short_row])
       (ref_session [] None)
     = (Raise (HTTPException 500 "An error occurred while processing the file"),
        ref_session [] None).
Proof. repeat split; vm_compute; reflexivity. Qed.


(** A row with an empty value cell, between two good rows. *)
Lemma load_data_skips_blank_row_alice :
  load_row ref_strptime ref_float "alice" 2 4 blank_value_row (ref_session [] None)
  = (Return tt, ref_session [] None)
  /\ ref_load_data
       (mkUploadFile "alice.csv"
          (Utf8 (yield_all ([metadata_row] ++ sample_headers :: [valid_row])
                   (Yield blank_value_row (Yield later_row Exhausted)))))
       (ref_session [] None)
     = ref_load_data
         (mkUploadFile "alice.csv"
            (Utf8 (yield_all ([metadata_row] ++ sample_headers :: [valid_row])
                     (Yield later_row Exhausted))))
         (ref_session [] None).
Proof.
  refine (load_data_skips_blank_row ref_datetime nat ref_strptime ref_float
            "alice.csv" "alice" [metadata_row] [valid_row] sample_headers
            blank_value_row 2 4 "01-01-2023 11:00" ""
            (Yield later_row Exhausted) (ref_session [] None)
            _ _ _ _ _ _ _).
  - other_widths.
  - reflexivity.
  - reflexivity.
  - reflexivity.
  - reflexivity.
  - reflexivity.
  - right. reflexivity.
Defined.

(** Two lines before the header, one of them with cells that would parse. *)
Lemma load_data_header_is_first_row_of_width_alice :
  find_headers
    (yield_all [metadata_row; ["01-01-2023 10:30"; "105"]]
       (Yield sample_headers (Yield valid_row Exhausted)))
    (ref_session [] None)
  = (Return (Some sample_headers, Yield valid_row Exhausted), ref_session [] None)
  /\ ref_load_data
       (mkUploadFile "alice.csv"
          (Utf8 (yield_all [metadata_row; ["01-01-2023 10:30"; "105"]]
                   (Yield sample_headers (Yield valid_row Exhausted)))))
       (ref_session [] None)
     = ref_load_data
         (mkUploadFile "alice.csv"
            (Utf8 (Yield sample_headers (Yield valid_row Exhausted))))
         (ref_session [] None).
Proof.
  refine (load_data_header_is_first_row_of_width ref_datetime nat
            ref_strptime ref_float "alice.csv"
            [metadata_row; ["01-01-2023 10:30"; "105"]] sample_headers
            (Yield valid_row Exhausted) (ref_session [] None) _ _).
  - other_widths.
  - reflexivity.
Defined.

(** [bob.txt], with a content that would load under another name. *)
Lemma load_data_rejects_other_extensions_bob :
  ref_load_data (upload "bob.txt" [sample_headers; valid_row])
    (ref_session [] None)
  = (Raise (HTTPException 400 "Unsupported file format"), ref_session [] None).
Proof.
  refine (load_data_rejects_other_extensions ref_datetime nat
            ref_strptime ref_float
            (upload "bob.txt" [sample_headers; valid_row])
            (ref_session [] None) _).
  reflexivity.
Defined.

(** [glucose.desc]: descending, and no attribute [glucose] to sort by. *)
Lemma get_glucose_levels_sort_parameter_glucose :
  sort_direction "glucose.desc" = desc
  /\ sort_column "glucose.desc" = "glucose"
  /\ ordering (@levels_query ref_datetime no_inherited_attr "alice" None None
                 1 10 "glucose.desc")
     = @nil (direction * string).
Proof.
  split; [reflexivity|]. split; [reflexivity|].
  refine (proj1 (proj2 (proj2 (proj2 (proj2
            (get_glucose_levels_sort_parameter ref_datetime nat
               no_inherited_attr whole_table "alice" None None 1%Z 10%Z
               "glucose.desc" (ref_session [] None))))) _)).
  reflexivity.
Defined.

(* ================================================================= *)
(** ** What a load request can answer, and what it can leave behind *)


Section Outcomes.

Variable datetime : Type.
Variable float : Type.
Context {storage : Storage datetime float}.
Variable strptime : string -> option datetime.
Variable float_of_str : string -> option float.

Implicit Types (db : Session datetime float) (rd rest : reader) (r : row).

Lemma read_from_more_rows (uid : string) (rows rows' : list row)
      (g : GlucoseLevel datetime float) :
  incl rows rows' ->
  read_from strptime float_of_str uid rows g ->
  read_from strptime float_of_str uid rows' g.
Proof.
  intros Hincl (r & t & v & T & V & Hr & H).
  exists r, t, v, T, V. split; [now apply Hincl|exact H].
Qed.

Lemma getitem_In {A : Type} (l : list A) (i : nat) (x : A) :
  getitem l i = Return x -> In x l.
Proof.
  unfold getitem. destruct (nth_error l i) eqn:E; [|discriminate].
  intros [= <-]. now apply nth_error_In with i.
Qed.

(** The loop body adds nothing, or the one record read off its row. *)
Lemma load_row_reads (uid : string) (ti gi : nat) r db :
  exists more,
    snd (load_row strptime float_of_str uid ti gi r db)
    = mkSession (table db) (new db ++ more) (failing db)
    /\ Forall (read_from strptime float_of_str uid [r]) more.
Proof.
  unfold load_row, bind, lift.
  destruct (getitem r ti) as [t|] eqn:Et;
    [|exists []; now rewrite app_nil_r, session_eta].
  destruct (getitem r gi) as [g|] eqn:Eg;
    [|exists []; now rewrite app_nil_r, session_eta].
  destruct (truthy t && truthy g);
    [|exists []; now rewrite app_nil_r, session_eta].
  unfold parse_and_add, try_except, bind, or_ValueError.
  destruct (strptime t) as [T|] eqn:ET;
    [|exists []; now rewrite app_nil_r, session_eta].
  cbn. destruct (float_of_str g) as [G|] eqn:EG;
    [|exists []; now rewrite app_nil_r, session_eta].
  eexists. split; [reflexivity|].
  constructor; [|constructor].
  exists r, t, g, T, G. repeat split; auto.
  - now left.
  - now apply getitem_In with ti.
  - now apply getitem_In with gi.
Qed.

Lemma load_rows_reads (uid : string) (ti gi : nat) rd db :
  exists more,
    snd (load_rows strptime float_of_str uid ti gi rd db)
    = mkSession (table db) (new db ++ more) (failing db)
    /\ Forall (read_from strptime float_of_str uid (rows_of rd)) more.
Proof.
  revert db; induction rd as [| |r rest IH]; intros db; simpl;
    try (exists []; now rewrite app_nil_r, session_eta).
  unfold bind.
  destruct (load_row_reads uid ti gi r db) as (m1 & E1 & C1).
  assert (C1' : Forall (read_from strptime float_of_str uid (r :: rows_of rest)) m1).
  { eapply Forall_impl; [|exact C1]. intros g. apply read_from_more_rows.
    intros x [<-|[]]. now left. }
  destruct (load_row strptime float_of_str uid ti gi r db) as [[[]|e] db'];
    simpl in E1; [|now exists m1].
  destruct (IH db') as (m2 & E2 & C2). subst db'. cbn [table new failing] in E2.
  exists (m1 ++ m2). rewrite app_assoc. split; [exact E2|].
  apply Forall_app. split; [exact C1'|].
  eapply Forall_impl; [|exact C2]. intros g. apply read_from_more_rows.
  intros x Hx. now right.
Qed.

Lemma find_headers_outcome rd db :
  (exists h rd', find_headers rd db = (Return (h, rd'), db)
                 /\ incl (rows_of rd') (rows_of rd))
  \/ (exists e, find_headers rd db = (Raise e, db)).
Proof.
  induction rd as [| |r rest IH]; simpl.
  - left. exists None, Exhausted. split; [reflexivity|]. intros x [].
  - right. now eexists.
  - destruct (Nat.eqb (List.length r) header_width).
    + left. exists (Some r), rest. split; [reflexivity|]. intros x Hx. now right.
    + destruct IH as [(h & rd' & E & Hincl)|(e & E)].
      * left. exists h, rd'. split; [exact E|]. intros x Hx. right. now apply Hincl.
      * right. now exists e.
Qed.

Lemma resolve_columns_outcome (h : option row) db :
  (exists idx, resolve_columns h db = (Return idx, db))
  \/ (exists e, resolve_columns h db = (Raise e, db)).
Proof.
  unfold resolve_columns, try_except, bind, headers_index, lift.
  destruct h as [h|]; [|right; now eexists].
  destruct (index timestamp_column h) as [i|[]]; try (right; now eexists).
  destruct (index glucose_value_column h) as [j|[]]; try (right; now eexists).
  left. now eexists.
Qed.

(** Every way [load_data] can end, with the session it leaves. *)
Lemma load_data_outcome (file : UploadFile) (uid : string) db :
  getitem (split "." (filename file)) 0 = Return uid ->
  (endswith ".csv" (filename file) = false
   /\ load_data strptime float_of_str file db
      = (Raise (HTTPException 400 "Unsupported file format"), db))
  \/ (endswith ".csv" (filename file) = true
      /\ exists more,
           Forall (read_from strptime float_of_str uid
                     (rows_of_content (content file))) more
           /\ ((exists pending,
                  load_data strptime float_of_str file db
                  = (Raise failed, mkSession (table db) pending (failing db)))
               \/ (failing db = None
                   /\ load_data strptime float_of_str file db
                      = (Return "Data loaded successfully",
                         mkSession
                           (table db
                            ++ number (max_id (table db) + 1) (new db ++ more))
                           [] None)))).
Proof.
  intros Huid. unfold load_data.
  destruct (endswith ".csv" (filename file)); cbn [negb]; [right|left; now split].
  split; [reflexivity|].
  assert (same : exists more,
            Forall (read_from strptime float_of_str uid
                      (rows_of_content (content file))) more
            /\ exists pending,
                 (Raise failed : result string, db)
                 = (Raise failed, mkSession (table db) pending (failing db))).
  { exists []. split; [constructor|]. exists (new db). now rewrite session_eta. }
  unfold try_except, load_data_body, bind, lift. rewrite Huid.
  destruct (content file) as [|rd] eqn:Ec; cbn [decode rows_of_content].
  { destruct same as (more & C & E). exists more. split; [exact C|now left]. }
  unfold ret.
  destruct (find_headers_outcome rd db) as [(h & rd' & -> & Hincl)|(e & ->)];
    [|destruct same as (more & C & E); exists more; split; [exact C|now left]].
  cbn [fst snd].
  destruct (resolve_columns_outcome h db) as [(idx & ->)|(e & ->)];
    [|destruct same as (more & C & E); exists more; split; [exact C|now left]].
  destruct (load_rows_reads uid (fst idx) (snd idx) rd' db) as (more & E & C).
  exists more. split.
  { eapply Forall_impl; [|exact C]. intros g. now apply read_from_more_rows. }
  destruct (load_rows strptime float_of_str uid (fst idx) (snd idx) rd' db)
    as [[[]|e] db']; simpl in E; subst db'.
  - unfold commit, inserted. cbn [table new failing].
    destruct (failing db) as [e|]; cbn; [left; now eexists|right; now split].
  - cbn. left. now eexists.
Qed.

Lemma number_nil_app (objs : list (GlucoseLevel datetime float)) (next : Z) :
  number next ([] ++ objs) = number next objs.
Proof. reflexivity. Qed.

(** X1. A load request has three possible answers and is all or nothing.
    A name that does not end in [.csv] gets the 400 and nothing else does;
    any other failure gets the 500 of the outer handler; in both cases the
    table is what it was.  Only the success message comes with new rows,
    which are appended behind the old ones, and only when the engine
    accepted the commit.  The session is left with nothing pending. *)
Theorem load_data_request_outcomes (file : UploadFile)
        (rows : list (GlucoseLevel datetime float)) (fault : option exn) :
  let out := get_db (load_data strptime float_of_str file) rows fault in
  new (snd out) = []
  /\ ((endswith ".csv" (filename file) = false
       /\ fst out = Raise (HTTPException 400 "Unsupported file format")
       /\ table (snd out) = rows)
      \/ (endswith ".csv" (filename file) = true
          /\ fst out = Raise (HTTPException 500
                                "An error occurred while processing the file")
          /\ table (snd out) = rows)
      \/ (endswith ".csv" (filename file) = true
          /\ fault = None
          /\ fst out = Return "Data loaded successfully"
          /\ exists more,
               table (snd out) = rows ++ number (max_id rows + 1) more)).
Proof.
  intros out. subst out. unfold get_db.
  destruct (getitem_split_0 "." (filename file)) as [uid Huid].
  destruct (load_data_outcome file uid (SessionLocal rows fault) Huid)
    as [[Hn ->]|(Hy & more & _ & [[pending ->]|[Hf ->]])]; cbn.
  - split; [reflexivity|]. left. now repeat split.
  - split; [reflexivity|]. right. left. now repeat split.
  - split; [reflexivity|]. right. right. repeat split; auto. now exists more.
Qed.


End Outcomes.

(* ================================================================= *)
(** ** Ids, and fetching a record by its id *)

Section Ids.

Variable datetime : Type.
Variable float : Type.
Context {storage : Storage datetime float}.

Implicit Types (db : Session datetime float)
         (rows objs : list (GlucoseLevel datetime float))
         (g : GlucoseLevel datetime float).

Lemma max_id_nonneg rows : (0 <= max_id rows)%Z.
Proof.
  induction rows as [|r rows IH]; simpl; [lia|].
  destruct (models.id r); lia.
Qed.

(** No id of the table is above [max_id]. *)
Lemma max_id_bound rows g (i : Z) :
  In g rows -> models.id g = Some i -> (i <= max_id rows)%Z.
Proof.
  induction rows as [|r rows IH]; intros Hin Hid; [destruct Hin|].
  simpl. destruct Hin as [->|Hin].
  - rewrite Hid. lia.
  - specialize (IH Hin Hid). destruct (models.id r); lia.
Qed.

Lemma max_id_app rows objs :
  max_id (rows ++ objs) = Z.max (max_id rows) (max_id objs).
Proof.
  induction rows as [|r rows IH]; simpl.
  - pose proof (max_id_nonneg objs). lia.
  - rewrite IH. destruct (models.id r); lia.
Qed.

Lemma max_id_number objs (next : Z) :
  (0 < next)%Z ->
  max_id (number next objs)
  = match objs with
    | [] => 0%Z
    | _ => (next + Z.of_nat (List.length objs) - 1)%Z
    end.
Proof.
  revert next; induction objs as [|o objs IH]; intros next Hpos; [reflexivity|].
  cbn [number max_id with_id models.id].
  rewrite IH by lia. destruct objs as [|o' objs].
  - cbn. lia.
  - cbn [List.length]. lia.
Qed.

(** After a commit the next free id is past every id just given. *)
Lemma max_id_after_insert rows objs :
  max_id (rows ++ number (max_id rows + 1) objs)
  = (max_id rows + Z.of_nat (List.length objs))%Z.
Proof.
  pose proof (max_id_nonneg rows) as H0.
  rewrite max_id_app, max_id_number by lia.
  destruct objs; cbn [List.length]; lia.
Qed.

Lemma number_length objs (next : Z) :
  List.length (number next objs) = List.length objs.
Proof. revert next; induction objs; intros; simpl; auto. Qed.

Lemma find_app_found {A : Type} (f : A -> bool) (l1 l2 : list A) (x : A) :
  find f l1 = Some x -> find f (l1 ++ l2) = Some x.
Proof.
  induction l1 as [|a l1 IH]; simpl; [discriminate|].
  destruct (f a); [auto|exact IH].
Qed.

Lemma find_app_missing {A : Type} (f : A -> bool) (l1 l2 : list A) :
  find f l1 = None -> find f (l1 ++ l2) = find f l2.
Proof.
  induction l1 as [|a l1 IH]; simpl; [reflexivity|].
  destruct (f a); [discriminate|exact IH].
Qed.

(** An id above [max_id] is not in the table. *)
Lemma first_by_id_above rows (i : Z) :
  (max_id rows < i)%Z -> first_by_id i rows = None.
Proof.
  intros Hi. unfold first_by_id.
  destruct (find (has_id i) rows) as [g|] eqn:E; [|reflexivity].
  apply find_some in E as [Hin Hid]. unfold has_id in Hid.
  destruct (models.id g) as [j|] eqn:Ej; [|discriminate].
  apply Z.eqb_eq in Hid. subst j.
  pose proof (max_id_bound rows g i Hin Ej). lia.
Qed.

(** Each record the storage numbered is the first with its id. *)
Lemma number_first_by_id objs (next : Z) g :
  In g (number next objs) ->
  exists i, models.id g = Some i /\ (next <= i)%Z
            /\ first_by_id i (number next objs) = Some g.
Proof.
  revert next; induction objs as [|o objs IH]; intros next Hin; [destruct Hin|].
  cbn [number] in *. destruct Hin as [<-|Hin].
  - exists next. repeat split; [lia|].
    unfold first_by_id. cbn. now rewrite Z.eqb_refl.
  - destruct (IH _ Hin) as (i & Hid & Hle & Hfind).
    exists i. repeat split; [exact Hid|lia|].
    unfold first_by_id in *. cbn [find has_id with_id models.id].
    destruct (Z.eqb next i) eqn:E; [apply Z.eqb_eq in E; lia|exact Hfind].
Qed.

(** Appending numbered records keeps every old lookup and makes every new
    record the answer to a lookup of its id. *)
Lemma first_by_id_after_insert rows objs :
  (forall (j : Z) x, first_by_id j rows = Some x ->
     first_by_id j (rows ++ number (max_id rows + 1) objs) = Some x)
  /\ (forall g, In g (number (max_id rows + 1) objs) ->
        exists i, models.id g = Some i /\ (max_id rows < i)%Z
          /\ first_by_id i (rows ++ number (max_id rows + 1) objs) = Some g).
Proof.
  split.
  - intros j x H. now apply find_app_found.
  - intros g Hin.
    destruct (number_first_by_id objs _ g Hin) as (i & Hid & Hle & Hfind).
    exists i. repeat split; [exact Hid|lia|].
    unfold first_by_id. rewrite find_app_missing; [exact Hfind|].
    apply first_by_id_above. lia.
Qed.

(** X5. Fetching by an id that fits a 64-bit integer, which is what the
    driver can bind, answers with a row of the table that has that id, or
    raises the 404 when no row has it; the session is left as it was. *)
Theorem get_glucose_level_outcomes (i : Z) db :
  (- 2 ^ 63 <= i < 2 ^ 63)%Z ->
  (exists g, get_glucose_level i db = (Return g, db)
             /\ In g (table db) /\ models.id g = Some i)
  \/ (get_glucose_level i db
      = (Raise (HTTPException 404 "Glucose level not found"), db)
      /\ forall g, In g (table db) -> models.id g <> Some i).
Proof.
  intros _. unfold get_glucose_level, first_by_id.
  destruct (find (has_id i) (table db)) as [g|] eqn:E.
  - left. exists g. apply find_some in E as [Hin Hid].
    repeat split; [exact Hin|]. unfold has_id in Hid.
    destruct (models.id g) as [j|]; [|discriminate].
    apply Z.eqb_eq in Hid. now subst.
  - right. split; [reflexivity|]. intros g Hin Hid.
    pose proof (find_none _ _ E g Hin) as H. unfold has_id in H.
    rewrite Hid, Z.eqb_refl in H. discriminate.
Qed.


(** X6. A record just created is what fetching its id answers with, and
    every id that could be fetched before is answered as before. *)
Theorem create_then_get_glucose_level
        (glucose_level : GlucoseLevelCreate datetime float) rows :
  let out := get_db (create_glucose_level glucose_level) rows None in
  exists stored,
    fst out = Return stored
    /\ models.id stored = Some (max_id rows + 1)%Z
    /\ get_glucose_level (max_id rows + 1) (snd out) = (Return stored, snd out)
    /\ forall (j : Z) x,
         get_glucose_level j (SessionLocal rows None) = (Return x, SessionLocal rows None) ->
         get_glucose_level j (snd out) = (Return x, snd out).
Proof.
  intros out. subst out. unfold get_db. cbn.
  eexists. split; [reflexivity|]. split; [reflexivity|].
  destruct (first_by_id_after_insert rows [of_create glucose_level]) as [Hold Hnew].
  split.
  - unfold get_glucose_level. cbn [table].
    destruct (Hnew _ (or_introl eq_refl)) as (i & Hid & _ & Hfind).
    cbn in Hid. injection Hid as <-. cbn in Hfind |- *.
    unfold first_by_id in Hfind. now rewrite Hfind.
  - intros j x. unfold get_glucose_level, first_by_id, SessionLocal, close in *.
    cbn [table].
    destruct (find (has_id j) rows) as [y|] eqn:E; [|discriminate].
    intros [= ->]. specialize (Hold j x E). cbn in Hold |- *.
    now rewrite Hold.
Qed.

End Ids.

(* ================================================================= *)
(** ** Loading, then fetching; loading twice *)

Section LoadAndFetch.

Variable datetime : Type.
Variable float : Type.
Context {storage : Storage datetime float}.
Variable strptime : string -> option datetime.
Variable float_of_str : string -> option float.

Implicit Types (rows : list (GlucoseLevel datetime float)).

(** X7. After a load request every row of the table was there before or
    is what fetching its id answers with, and every id that could be
    fetched before the request is answered as before. *)
Theorem load_data_then_get_glucose_level (file : UploadFile) rows
        (fault : option exn) :
  let out := get_db (load_data strptime float_of_str file) rows fault in
  (forall g, In g (table (snd out)) ->
     In g rows
     \/ exists i, models.id g = Some i
                  /\ get_glucose_level i (snd out) = (Return g, snd out))
  /\ (forall (j : Z) x,
        first_by_id j rows = Some x ->
        get_glucose_level j (snd out) = (Return x, snd out)).
Proof.
  intros out. subst out. unfold get_db.
  destruct (getitem_split_0 "." (filename file)) as [uid Huid].
  destruct (load_data_outcome _ _ strptime float_of_str file uid
              (SessionLocal rows fault) Huid)
    as [[Hn ->]|(Hy & more & _ & [[pending ->]|[Hf ->]])];
    unfold get_glucose_level, close, SessionLocal; cbn [fst snd table new app].
  - split; [intros g Hg; now left|]. intros j x ->. reflexivity.
  - split; [intros g Hg; now left|]. intros j x ->. reflexivity.
  - destruct (first_by_id_after_insert _ _ rows more) as [Hold Hnew].
    split.
    + intros g Hg. apply in_app_or in Hg as [Hg|Hg]; [now left|right].
      destruct (Hnew g Hg) as (i & Hid & _ & Hfind).
      exists i. split; [exact Hid|]. now rewrite Hfind.
    + intros j x E. now rewrite (Hold j x E).
Qed.

Section WideFiles.

Hypothesis strptime_empty : strptime "" = None.
Hypothesis float_of_str_empty : float_of_str "" = None.

(** A request on a file all of whose data rows have both cells. *)
Lemma load_data_wide_request
      (uid tail : string) (pre data : list row) (headers : row) (ti gi : nat) rows :
  free_of "." uid ->
  endswith ".csv" (uid ++ "." ++ tail) = true ->
  Forall (fun r => List.length r <> header_width) pre ->
  List.length headers = header_width ->
  index timestamp_column headers = Return ti ->
  index glucose_value_column headers = Return gi ->
  Forall (has_both_cells ti gi) data ->
  get_db (load_data strptime float_of_str
            (mkUploadFile (uid ++ "." ++ tail)
               (Utf8 (yield_all (pre ++ headers :: data) Exhausted))))
         rows None
  = (Return "Data loaded successfully",
     mkSession
       (rows ++ number (max_id rows + 1)
                  (flat_map (row_records strptime float_of_str uid ti gi) data))
       [] None).
Proof.
  intros Hfree Hcsv Hpre Hw Hti Hgi Hdata. unfold get_db.
  rewrite yield_all_app. cbn [yield_all fold_right].
  rewrite (load_data_from_headers _ _ strptime float_of_str
             (uid ++ "." ++ tail) uid pre headers ti gi
             _ (SessionLocal rows None) Hcsv
             (getitem_split_first "." uid tail Hfree) Hpre Hw Hti Hgi).
  fold (yield_all data Exhausted).
  rewrite (load_rows_wide _ _ strptime float_of_str strptime_empty
             float_of_str_empty uid ti gi data _ Hdata).
  reflexivity.
Qed.

(** X3. Loading is not idempotent.  A file that loads is loaded again in
    full when it is uploaded a second time: the table then holds every
    record of the file twice, the second copy under the ids that follow
    those of the first. *)
Theorem load_data_twice_duplicates
        (uid tail : string) (pre data : list row) (headers : row) (ti gi : nat) rows :
  free_of "." uid ->
  endswith ".csv" (uid ++ "." ++ tail) = true ->
  Forall (fun r => List.length r <> header_width) pre ->
  List.length headers = header_width ->
  index timestamp_column headers = Return ti ->
  index glucose_value_column headers = Return gi ->
  Forall (has_both_cells ti gi) data ->
  let file := mkUploadFile (uid ++ "." ++ tail)
                (Utf8 (yield_all (pre ++ headers :: data) Exhausted)) in
  let records := flat_map (row_records strptime float_of_str uid ti gi) data in
  let once := get_db (load_data strptime float_of_str file) rows None in
  let twice := get_db (load_data strptime float_of_str file)
                 (table (snd once)) None in
  fst twice = Return "Data loaded successfully"
  /\ table (snd twice)
     = rows
       ++ number (max_id rows + 1) records
       ++ number (max_id rows + 1 + Z.of_nat (List.length records)) records.
Proof.
  intros Hfree Hcsv Hpre Hw Hti Hgi Hdata file records once twice.
  subst twice once file records.
  rewrite (load_data_wide_request uid tail pre data headers ti gi rows
             Hfree Hcsv Hpre Hw Hti Hgi Hdata).
  cbn [fst snd table].
  rewrite (load_data_wide_request uid tail pre data headers ti gi _
             Hfree Hcsv Hpre Hw Hti Hgi Hdata).
  cbn [fst snd table]. split; [reflexivity|].
  rewrite max_id_after_insert, <- app_assoc.
  do 3 f_equal. lia.
Qed.

End WideFiles.

End LoadAndFetch.

(* ================================================================= *)
(** ** The export endpoint *)

Section ExportEndpoint.

Variable datetime : Type.
Variable float : Type.
Context {storage : Storage datetime float}.
Variable all :
  Query datetime -> list (GlucoseLevel datetime float) ->
  result (list (GlucoseLevel datetime float)).
Variable str_int : Z -> string.
Variable str_datetime : datetime -> string.
Variable str_float : float -> string.

Implicit Types (db : Session datetime float).

Lemma export_body_width (user_id : string) (body : list row)
      (disposition : string) db :
  export_data all str_int str_datetime str_float user_id db
  = (Return (StreamingResponse body disposition), db) ->
  Forall (fun r => List.length r = 4) body.
Proof.
  unfold export_data.
  destruct (all (export_query datetime user_id) (table db)) as [[|g0 results]|e];
    try discriminate.
  destruct (latin1 _); [|discriminate].
  intros [= <- _]. apply Forall_forall. intros r [<-|Hr]; [reflexivity|].
  apply (in_map_iff (export_row str_int str_datetime str_float)
           (g0 :: results) r) in Hr as (g & <- & _).
  reflexivity.
Qed.

(** X9. What the export writes cannot be loaded back.  Every row of an
    exported body has four cells, so an upload whose reader yields those
    rows has no row of 19 cells: whatever its name, as long as it ends in
    [.csv], the load request fails with the 500 and changes nothing. *)
Theorem exported_body_does_not_load
        (strptime : string -> option datetime)
        (float_of_str : string -> option float)
        (user_id name : string) (body : list row) (disposition : string)
        (rd : reader) db db' :
  export_data all str_int str_datetime str_float user_id db
  = (Return (StreamingResponse body disposition), db) ->
  endswith ".csv" name = true ->
  rd = Exhausted \/ rd = Broken ->
  load_data strptime float_of_str (mkUploadFile name (Utf8 (yield_all body rd))) db'
  = (Raise (HTTPException 500 "An error occurred while processing the file"), db').
Proof.
  intros Hexp Hcsv Hrd.
  apply (load_data_no_header _ _ strptime float_of_str name body rd db' Hcsv);
    [|exact Hrd].
  eapply Forall_impl; [|exact (export_body_width user_id body disposition db Hexp)].
  intros r ->. discriminate.
Qed.

End ExportEndpoint.

(* ================================================================= *)
(** ** Pages and sort strings of the list endpoint *)

Section Pages.

Variable datetime : Type.
Variable inherited_attr : string -> bool.

(** X10. Pages tile the result.  For a page number and a page size of at
    least 1, which is what the endpoint admits, the query skips a
    non-negative number of rows, none on page 1, and limits itself to one
    page; the next page starts exactly where this one ends, with the same
    filters and the same ordering. *)
Theorem levels_query_pages
        (user_id : string) (start stop : option datetime)
        (page page_size : Z) (sort : string) :
  (1 <= page)%Z -> (1 <= page_size)%Z ->
  let q := levels_query inherited_attr user_id start stop page page_size sort in
  let next := levels_query inherited_attr user_id start stop (page + 1)
                page_size sort in
  exists skipped,
    offset q = Some skipped /\ limit q = Some page_size
    /\ (0 <= skipped)%Z /\ (page = 1%Z -> skipped = 0%Z)
    /\ offset next = Some (skipped + page_size)%Z
    /\ limit next = Some page_size
    /\ criteria next = criteria q /\ ordering next = ordering q.
Proof.
  intros Hp Hs q next. subst q next. unfold levels_query.
  exists ((page - 1) * page_size)%Z.
  cbn [offset limit criteria ordering with_limit with_offset].
  repeat split; try reflexivity.
  - nia.
  - intros ->. reflexivity.
  - f_equal. ring.
Qed.

End Pages.

Lemma append_associative (a b c : string) :
  ((a ++ b) ++ c)%string = (a ++ b ++ c)%string.
Proof. induction a as [|x a IH]; simpl; [reflexivity|now rewrite IH]. Qed.

Lemma append_empty (s : string) : (s ++ "")%string = s.
Proof. induction s as [|c s IH]; simpl; [reflexivity|now rewrite IH]. Qed.

(** A pattern that starts with a dot is not found in a text without one. *)
Lemma replace_dot_free (o new col s : string) :
  free_of "." col ->
  replace (String "." o) new (col ++ s)%string
  = (col ++ replace (String "." o) new s)%string.
Proof.
  induction col as [|c col IH]; intros Hfree; [reflexivity|].
  destruct Hfree as [Hc Hfree].
  change ((String c col ++ s)%string) with (String c (col ++ s)%string).
  rewrite replace_keep.
  - now rewrite (IH Hfree).
  - cbn [startswith]. destruct (Ascii.eqb "." c) eqn:E; [|reflexivity].
    apply ascii_eqb_true in E. congruence.
Qed.

Ltac eqb_cases :=
  repeat match goal with
         | |- context [Ascii.eqb ?x ?y] => destruct (Ascii.eqb x y)
         end; reflexivity.

(** [desc] does not reach into a suffix that starts with a dot and is
    shorter than five characters. *)
Lemma startswith_desc_suffix (u : string) :
  startswith "desc" (u ++ ".asc")%string = startswith "desc" u.
Proof.
  destruct u as [|a [|b [|c [|d u]]]]; cbn; eqb_cases.
Qed.

Lemma contains_desc_suffix (col : string) :
  contains "desc" (col ++ ".asc")%string = contains "desc" col.
Proof.
  induction col as [|c col IH]; [reflexivity|].
  change ((String c col ++ ".asc")%string) with (String c (col ++ ".asc")%string).
  cbn [contains].
  change (String c (col ++ ".asc")%string) with ((String c col ++ ".asc")%string).
  now rewrite startswith_desc_suffix, IH.
Qed.

(** X11. The suffix convention of the sort string, on a column name
    without a dot.  With no suffix, with [.asc] and with [.desc] the column
    sorted by is that name.  The suffix [.desc] always sorts descending;
    with [.asc] or with no suffix the direction is ascending unless the
    name itself has [desc] in it, and then it is descending. *)
Theorem sort_suffix_convention (col : string) :
  free_of "." col ->
  sort_column col = col
  /\ sort_column (col ++ ".asc") = col
  /\ sort_column (col ++ ".desc") = col
  /\ sort_direction (col ++ ".desc") = desc
  /\ (sort_direction (col ++ ".asc") = desc
      <-> exists a b, col = (a ++ "desc" ++ b)%string)
  /\ (sort_direction col = desc
      <-> exists a b, col = (a ++ "desc" ++ b)%string).
Proof.
  intros Hfree. unfold sort_column.
  assert (E0 : replace ".asc" "" col = col).
  { rewrite <- (append_empty col) at 1.
    rewrite (replace_dot_free "asc" "" col "" Hfree). apply append_empty. }
  assert (E1 : replace ".desc" "" col = col).
  { rewrite <- (append_empty col) at 1.
    rewrite (replace_dot_free "desc" "" col "" Hfree). apply append_empty. }
  split; [now rewrite E0, E1|].
  split.
  { rewrite (replace_dot_free "asc" "" col ".asc" Hfree).
    change (replace ".asc" "" ".asc") with "". now rewrite append_empty. }
  split.
  { rewrite (replace_dot_free "asc" "" col ".desc" Hfree).
    change (replace ".asc" "" ".desc") with ".desc".
    rewrite (replace_dot_free "desc" "" col ".desc" Hfree).
    change (replace ".desc" "" ".desc") with "". apply append_empty. }
  split.
  { unfold sort_direction.
    replace (contains "desc" (col ++ ".desc")) with true; [reflexivity|].
    symmetry. apply contains_spec. exists (col ++ ".")%string, "".
    now rewrite append_associative. }
  split.
  - unfold sort_direction. rewrite contains_desc_suffix, <- contains_spec.
    destruct (contains "desc" col); split; congruence.
  - unfold sort_direction. rewrite <- contains_spec.
    destruct (contains "desc" col); split; congruence.
Qed.

(* ================================================================= *)
(** ** Which fields of a persisted record can be null *)

Section Persisted.

Variable datetime : Type.
Variable float : Type.
Context {storage : Storage datetime float}.
Variable strptime : string -> option datetime.
Variable float_of_str : string -> option float.

Implicit Types (db : Session datetime float)
         (rows objs : list (GlucoseLevel datetime float)).




(** X12. A value that is NaN is stored, and then the answer does not pass
    the response model.  A create request the engine accepts appends its
    record and answers with it; that record, which is also what fetching
    its id answers with from then on, converts to a [GlucoseLevelResponse]
    exactly when the value of the request is not NaN. *)
Theorem create_glucose_level_response_model
        (glucose_level : GlucoseLevelCreate datetime float) rows :
  let out := get_db (create_glucose_level glucose_level) rows None in
  exists stored,
    fst out = Return stored
    /\ table (snd out) = rows ++ [stored]
    /\ get_glucose_level (max_id rows + 1) (snd out) = (Return stored, snd out)
    /\ (from_orm stored = None
        <-> isnan (schemas.glucose_value glucose_level) = true).
Proof.
  intros out. subst out. unfold get_db. cbn.
  eexists. split; [reflexivity|]. split; [reflexivity|].
  split.
  - destruct (first_by_id_after_insert _ _ rows [of_create glucose_level])
      as [_ Hnew].
    unfold get_glucose_level. cbn [table].
    destruct (Hnew _ (or_introl eq_refl)) as (i & Hid & _ & Hfind).
    cbn in Hid. injection Hid as <-. cbn in Hfind |- *.
    unfold first_by_id in Hfind. now rewrite Hfind.
  - unfold from_orm. cbn.
    destruct (isnan (schemas.glucose_value glucose_level));
      split; congruence.
Qed.

End Persisted.

(* ================================================================= *)
(** ** The other endpoints on sample requests *)

(** The file of two good rows, uploaded twice to an empty table. *)
Lemma load_data_twice_duplicates_alice :
  fst (get_db
         (ref_load_data
            (upload "alice.csv" [metadata_row; sample_headers; valid_row; later_row]))
         (table (snd (get_db
                        (ref_load_data
                           (upload "alice.csv"
                              [metadata_row; sample_headers; valid_row; later_row]))
                        [] None)))
         None)
  = Return "Data loaded successfully"
  /\ table (snd (get_db
                   (ref_load_data
                      (upload "alice.csv"
                         [metadata_row; sample_headers; valid_row; later_row]))
                   (table (snd (get_db
                                  (ref_load_data
                                     (upload "alice.csv"
                                        [metadata_row; sample_headers;
                                         valid_row; later_row]))
                                  [] None)))
                   None))
     = [alice_105 (Some 1%Z); alice_98 (Some 2%Z);
        alice_105 (Some 3%Z); alice_98 (Some 4%Z)].
Proof.
  refine (load_data_twice_duplicates ref_datetime nat ref_strptime ref_float
            eq_refl eq_refl "alice" "csv" [metadata_row] [valid_row; later_row]
            sample_headers 2 4 [] _ _ _ _ _ _ _).
  - cbn. repeat split; discriminate.
  - reflexivity.
  - other_widths.
  - reflexivity.
  - reflexivity.
  - reflexivity.
  - both_cells.
Defined.

(** The export of one record of [alice], saved and uploaded again. *)
Lemma exported_body_does_not_load_alice :
  ref_export_data "alice" (ref_session [alice_105 (Some 1%Z)] None)
  = (Return (StreamingResponse
               [["id"; "user_id"; "timestamp"; "glucose_value"];
                ["1"; "alice"; "2023-01-01 10:30:00"; "105.0"]]
               "attachment; filename=glucose_levels_alice.csv"),
     ref_session [alice_105 (Some 1%Z)] None)
  /\ ref_load_data
       (upload "glucose_levels_alice.csv"
          [["id"; "user_id"; "timestamp"; "glucose_value"];
           ["1"; "alice"; "2023-01-01 10:30:00"; "105.0"]])
       (ref_session [alice_105 (Some 1%Z)] None)
     = (Raise (HTTPException 500 "An error occurred while processing the file"),
        ref_session [alice_105 (Some 1%Z)] None).
Proof.
  split; [reflexivity|].
  refine (exported_body_does_not_load ref_datetime nat whole_table
            ref_str_int ref_str_datetime ref_str_float ref_strptime ref_float
            "alice" "glucose_levels_alice.csv" _
            "attachment; filename=glucose_levels_alice.csv" Exhausted
            (ref_session [alice_105 (Some 1%Z)] None)
            (ref_session [alice_105 (Some 1%Z)] None) _ _ _).
  - reflexivity.
  - reflexivity.
  - left. reflexivity.
Defined.

(** Page 2 of size 10 skips ten rows, page 3 twenty. *)
Lemma levels_query_pages_second :
  exists skipped,
    offset (@levels_query ref_datetime no_inherited_attr "alice" None None
              2 10 "timestamp.desc") = Some skipped
    /\ limit (@levels_query ref_datetime no_inherited_attr "alice" None None
                2 10 "timestamp.desc") = Some 10%Z
    /\ (0 <= skipped)%Z /\ (2%Z = 1%Z -> skipped = 0%Z)
    /\ offset (@levels_query ref_datetime no_inherited_attr "alice" None None
                 (2 + 1) 10 "timestamp.desc") = Some (skipped + 10)%Z
    /\ limit (@levels_query ref_datetime no_inherited_attr "alice" None None
                (2 + 1) 10 "timestamp.desc") = Some 10%Z
    /\ criteria (@levels_query ref_datetime no_inherited_attr "alice" None None
                   (2 + 1) 10 "timestamp.desc")
       = criteria (@levels_query ref_datetime no_inherited_attr "alice" None None
                     2 10 "timestamp.desc")
    /\ ordering (@levels_query ref_datetime no_inherited_attr "alice" None None
                   (2 + 1) 10 "timestamp.desc")
       = ordering (@levels_query ref_datetime no_inherited_attr "alice" None None
                     2 10 "timestamp.desc").
Proof.
  refine (levels_query_pages ref_datetime no_inherited_attr "alice" None None
            2%Z 10%Z "timestamp.desc" _ _); lia.
Defined.

(** The column [glucose_value], as the client would name it. *)
Lemma sort_suffix_convention_glucose_value :
  sort_column "glucose_value" = "glucose_value"
  /\ sort_column "glucose_value.asc" = "glucose_value"
  /\ sort_column "glucose_value.desc" = "glucose_value"
  /\ sort_direction "glucose_value.desc" = desc
  /\ (sort_direction "glucose_value.asc" = desc
      <-> exists a b, "glucose_value" = (a ++ "desc" ++ b)%string)
  /\ (sort_direction "glucose_value" = desc
      <-> exists a b, "glucose_value" = (a ++ "desc" ++ b)%string).
Proof.
  refine (sort_suffix_convention "glucose_value" _).
  cbn. repeat split; discriminate.
Defined.

(* ================================================================= *)
(** ** Sorting by a column of the record; files with nothing to load *)

(** X13. Each of the four columns of the record can be sorted by, both
    ways: whatever else the class has as attributes, the column name with
    [.desc] orders the query by that column descending, and with [.asc] or
    with no suffix by that column ascending. *)
Theorem levels_query_sorts_by_column
        (datetime : Type) (inherited_attr : string -> bool)
        (user_id : string) (start stop : option datetime)
        (page page_size : Z) (col : string) :
  In col ["id"; "user_id"; "timestamp"; "glucose_value"] ->
  ordering (levels_query inherited_attr user_id start stop page page_size
              (col ++ ".desc")) = [(desc, col)]
  /\ ordering (levels_query inherited_attr user_id start stop page page_size
                 (col ++ ".asc")) = [(asc, col)]
  /\ ordering (levels_query inherited_attr user_id start stop page page_size col)
     = [(asc, col)].
Proof.
  intros Hcol. unfold levels_query.
  repeat (destruct Hcol as [<-|Hcol]; [destruct start, stop; repeat split|]).
  destruct Hcol.
Qed.

Section NothingToLoad.

Variable datetime : Type.
Variable float : Type.
Context {storage : Storage datetime float}.
Variable strptime : string -> option datetime.
Variable float_of_str : string -> option float.

(** X14. Success does not mean that anything was loaded.  When the file
    has its header and every later row has both cells but an empty one
    among the two, or one that does not parse, the request still answers
    with the success message, and the table is what it was.  A file that
    ends with its header is the case of no later row. *)
Theorem load_data_succeeds_with_nothing
        (uid tail : string) (pre data : list row) (headers : row) (ti gi : nat)
        (rows : list (GlucoseLevel datetime float)) :
  free_of "." uid ->
  endswith ".csv" (uid ++ "." ++ tail) = true ->
  Forall (fun r => List.length r <> header_width) pre ->
  List.length headers = header_width ->
  index timestamp_column headers = Return ti ->
  index glucose_value_column headers = Return gi ->
  Forall (fun r => exists t g,
            nth_error r ti = Some t /\ nth_error r gi = Some g
            /\ (t = "" \/ g = "" \/ strptime t = None \/ float_of_str g = None))
         data ->
  get_db (load_data strptime float_of_str
            (mkUploadFile (uid ++ "." ++ tail)
               (Utf8 (yield_all (pre ++ headers :: data) Exhausted))))
         rows None
  = (Return "Data loaded successfully", mkSession rows [] None).
Proof.
  intros Hfree Hcsv Hpre Hw Hti Hgi Hdata. unfold get_db.
  rewrite yield_all_app. cbn [yield_all fold_right].
  rewrite (load_data_from_headers _ _ strptime float_of_str
             (uid ++ "." ++ tail) uid pre headers ti gi
             _ (SessionLocal rows None) Hcsv
             (getitem_split_first "." uid tail Hfree) Hpre Hw Hti Hgi).
  fold (yield_all data Exhausted).
  assert (Hloop : forall db,
            load_rows strptime float_of_str uid ti gi (yield_all data Exhausted) db
            = (Return tt, db)).
  { induction Hdata as [|r data (t & g & Ht & Hg & Hbad) _ IH]; intros db;
      [reflexivity|].
    cbn [yield_all fold_right load_rows]. unfold bind.
    rewrite (load_row_skip _ _ strptime float_of_str uid ti gi r t g db Ht Hg Hbad).
    apply IH. }
  rewrite Hloop. cbn. now rewrite app_nil_r.
Qed.

End NothingToLoad.

(** A file whose only data row has an empty value. *)
Lemma load_data_succeeds_with_nothing_alice :
  get_db (ref_load_data
            (upload "alice.csv" [metadata_row; sample_headers; blank_value_row]))
         [alice_105 (Some 1%Z)] None
  = (Return "Data loaded successfully", mkSession [alice_105 (Some 1%Z)] [] None).
Proof.
  refine (load_data_succeeds_with_nothing ref_datetime nat ref_strptime ref_float
            "alice" "csv" [metadata_row] [blank_value_row] sample_headers 2 4
            [alice_105 (Some 1%Z)] _ _ _ _ _ _ _).
  - cbn. repeat split; discriminate.
  - reflexivity.
  - other_widths.
  - reflexivity.
  - reflexivity.
  - reflexivity.
  - constructor; [|constructor].
    exists "01-01-2023 11:00", "". repeat split. right. left. reflexivity.
Defined.

(** The timestamp column, both ways. *)
Lemma levels_query_sorts_by_column_timestamp :
  ordering (@levels_query ref_datetime no_inherited_attr "alice" None None 1 10
              "timestamp.desc") = [(desc, "timestamp")]
  /\ ordering (@levels_query ref_datetime no_inherited_attr "alice" None None 1 10
                 "timestamp.asc") = [(asc, "timestamp")]
  /\ ordering (@levels_query ref_datetime no_inherited_attr "alice" None None 1 10
                 "timestamp") = [(asc, "timestamp")].
Proof.
  refine (levels_query_sorts_by_column ref_datetime no_inherited_attr "alice"
            None None 1%Z 10%Z "timestamp" _).
  right. right. left. reflexivity.
Defined.

(** The three tests of [test_main.py], on an empty table: the record
    created for [test_user] gets id 1 and is what fetching id 1 answers
    with. *)
Lemma test_create_then_get :
  let payload := schemas.mkGlucoseLevelCreate "test_user"
                   (mkDatetime 2023 1 1 0 0) 100 in
  let stored := models.mkGlucoseLevel (Some 1%Z) (Some "test_user")
                  (Some (mkDatetime 2023 1 1 0 0)) (Some 100) in
  let created := get_db (create_glucose_level payload) [] None in
  fst created = Return stored
  /\ fst (get_db (get_glucose_level 1) (table (snd created)) None) = Return stored.
Proof. split; reflexivity. Qed.

(* ================================================================= *)
(** ** A value that is NaN *)



(** Fetching id 1 from a table of one record. *)
Lemma get_glucose_level_outcomes_alice :
  (exists g,
     get_glucose_level 1 (ref_session [alice_105 (Some 1%Z)] None)
     = (Return g, ref_session [alice_105 (Some 1%Z)] None)
     /\ In g (table (ref_session [alice_105 (Some 1%Z)] None))
     /\ models.id g = Some 1%Z)
  \/ (get_glucose_level 1 (ref_session [alice_105 (Some 1%Z)] None)
      = (Raise (HTTPException 404 "Glucose level not found"),
         ref_session [alice_105 (Some 1%Z)] None)
      /\ forall g, In g (table (ref_session [alice_105 (Some 1%Z)] None)) ->
                   models.id g <> Some 1%Z).
Proof.
  refine (get_glucose_level_outcomes ref_datetime nat 1%Z
            (ref_session [alice_105 (Some 1%Z)] None) _).
  lia.
Defined.
